(** * JDBC connector: query generation and the scan life cycle

    A shallow embedding of [be/src/connector/jdbc_connector.cpp]:
    the SQL text built by [get_jdbc_sql], and the data source methods
    [open], [get_next], [close] and [raw_rows_read] of [JDBCDataSource],
    run against a scanner that is only known through its interface. *)

From Stdlib Require Import ZArith Lia.
From stdpp Require Import base option list strings pretty gmap.

Local Open Scope Z_scope.

(** ** Output streams

    An [std::ostringstream] is the text written so far; [oss << s]
    appends.  An [int64_t] is written in decimal, with a leading minus
    sign when negative, which is what [pretty] does on [Z]. *)

Notation "oss << s" := (String.append oss s)
  (at level 50, left associativity, only parsing).

Definition put_int64 (n : Z) : string := pretty n.

(** [for (size_t i = 0; i < v.size(); i++) body(i, v[i])] over a state. *)
Definition for_index {St : Type} (v : list string)
    (body : St → nat → string → St) (st : St) : St :=
  foldl (λ acc i, body acc i (v !!! i)) st (seq 0 (length v)).

(** ** get_jdbc_sql *)

Definition get_jdbc_sql (table : string) (columns filters : list string)
    (limit : Z) : string :=
  let oss := "" in
  let oss := oss << "SELECT" in
  let oss :=
    for_index columns
      (λ oss i c, oss << (if Nat.eqb i 0 then "" else ",") << " " << c) oss in
  let oss := oss << " FROM " << table in
  let oss :=
    if negb (bool_decide (filters = [])) then
      let oss := oss << " WHERE " in
      for_index filters
        (λ oss i f, oss << (if Nat.eqb i 0 then "" else " AND") << "(" << f << ")")
        oss
    else oss in
  let oss :=
    if negb (Z.eqb limit (-1)) then oss << " LIMIT " << put_int64 limit
    else oss in
  oss.

(** ** The shape of a generated query

    A query is a sequence of clauses, each rendered on its own. *)

Inductive Clause :=
  | SelectClause (columns : list string)
  | FromClause (table : string)
  | WhereClause (filters : list string)
  | LimitClause (limit : Z).

Definition parenthesized (f : string) : string := "(" +:+ f +:+ ")".

Definition render_clause (c : Clause) : string :=
  match c with
  | SelectClause columns =>
      "SELECT" +:+ String.concat "," ((λ c, " " +:+ c) <$> columns)
  | FromClause table => " FROM " +:+ table
  | WhereClause filters =>
      " WHERE " +:+ String.concat " AND" (parenthesized <$> filters)
  | LimitClause limit => " LIMIT " +:+ put_int64 limit
  end.

Definition render_query (cs : list Clause) : string :=
  foldr (λ c rest, render_clause c +:+ rest) "" cs.

Definition is_limit_clause (c : Clause) : bool :=
  match c with LimitClause _ => true | _ => false end.

Definition where_clauses (filters : list string) : list Clause :=
  match filters with [] => [] | _ => [WhereClause filters] end.

Definition limit_clauses (limit : Z) : list Clause :=
  if decide (limit = -1) then [] else [LimitClause limit].

Definition query_clauses (table : string) (columns filters : list string)
    (limit : Z) : list Clause :=
  [SelectClause columns; FromClause table]
    ++ where_clauses filters ++ limit_clauses limit.

(** ** Status

    [Status::OK()], [Status::EndOfFile(msg)] and the errors the
    collaborators may hand back; [ok()] holds of the OK code alone. *)

Inductive TStatusCode :=
  | TOK | TCANCELLED | TNOT_FOUND | TEND_OF_FILE | TINTERNAL_ERROR | TRUNTIME_ERROR.

Record Status := mkStatus { status_code : TStatusCode; status_msg : string }.

Definition Status_OK : Status := mkStatus TOK "".
Definition Status_EndOfFile (msg : string) : Status := mkStatus TEND_OF_FILE msg.
Definition Status_NotFound (msg : string) : Status := mkStatus TNOT_FOUND msg.

Definition Status_ok (st : Status) : bool :=
  match status_code st with TOK => true | _ => false end.

(** ** Descriptors and the plan node *)

Record JDBCTableDescriptor := {
  jdbc_driver_name : string;
  jdbc_driver_url : string;
  jdbc_driver_checksum : string;
  jdbc_driver_class : string;
  jdbc_url : string;
  jdbc_table : string;
  jdbc_user : string;
  jdbc_passwd : string;
}.

Record TupleDescriptor := { table_desc : JDBCTableDescriptor }.

(** [state->desc_tbl().get_tuple_descriptor(id)] is a lookup that yields
    a null pointer for an unknown tuple id. *)
Record RuntimeState := { desc_tbl : gmap Z TupleDescriptor }.

Definition get_tuple_descriptor (state : RuntimeState) (id : Z) :
    option TupleDescriptor :=
  desc_tbl state !! id.

Record TJDBCScanNode := {
  tuple_id : Z;
  columns : list string;
  filters : list string;
}.

Record JDBCDataSourceProvider := { _jdbc_scan_node : TJDBCScanNode }.

Record JDBCScanContext := {
  driver_path : string;
  driver_class_name : string;
  ctx_jdbc_url : string;
  user : string;
  passwd : string;
  sql : string;
}.

(** [JDBCDriverManager::get_driver_location(name, url, checksum, &location)]:
    the status and the location written through the out-parameter. *)
Definition JDBCDriverManager : Type := string → string → string → Status * string.

(** ** What a call can come to

    A method either returns, or dereferences a null pointer, or is still
    looping when the fuel of the model runs out. *)

Inductive outcome (A : Type) :=
  | Done (a : A)
  | NullDereference
  | OutOfFuel.
Arguments Done {A} a.
Arguments NullDereference {A}.
Arguments OutOfFuel {A}.

(** ** Chunks and the scanner interface

    A chunk is the rows it holds.  [JDBCScanner] is not part of this
    file: the data source only calls its constructor and the four
    methods below, each of which may change the scanner.  [get_next] is
    always called on a chunk without rows and with [eos] still false, so
    it is taken as producing the chunk and the flag. *)

Definition Chunk (Row : Type) : Type := list Row.

Definition num_rows {Row : Type} (chunk : Chunk Row) : Z := Z.of_nat (length chunk).

Class JDBCScannerOps (Row Scanner : Type) := {
  scanner_new : JDBCScanContext → TupleDescriptor → Scanner;
  scanner_open : Scanner → RuntimeState → Status * Scanner;
  scanner_reset_jni_env : Scanner → Status * Scanner;
  scanner_get_next : Scanner → RuntimeState → Status * Chunk Row * bool * Scanner;
  scanner_close : Scanner → RuntimeState → Status * Scanner;
}.

(** ** 64-bit counters

    [_rows_read] is an [int64_t] and [num_rows()] a [size_t]: the sum is
    taken modulo 2^64 and read back as a signed number. *)

Definition int64_wrap (z : Z) : Z := (z + 2 ^ 63) `mod` 2 ^ 64 - 2 ^ 63.

Definition int64_max : Z := 2 ^ 63 - 1.

(** ** JDBCDataSource *)

Record JDBCDataSource (Scanner : Type) := mkJDBCDataSource {
  _provider : JDBCDataSourceProvider;
  _runtime_state : option RuntimeState;
  _tuple_desc : option TupleDescriptor;
  _scanner : option Scanner;
  _rows_read : Z;
  _read_limit : Z;
}.
Arguments mkJDBCDataSource {Scanner}.
Arguments _provider {Scanner}.
Arguments _runtime_state {Scanner}.
Arguments _tuple_desc {Scanner}.
Arguments _scanner {Scanner}.
Arguments _rows_read {Scanner}.
Arguments _read_limit {Scanner}.

(** Modelled from the spec: the member initialisers of the class live in
    the header [connector/jdbc_connector.h], which is not in this file;
    a session starts without a scanner ("scanner was never created"),
    with no rows read and with the no-limit sentinel as read limit. *)
Definition new_JDBCDataSource {Scanner : Type}
    (provider : JDBCDataSourceProvider) : JDBCDataSource Scanner :=
  mkJDBCDataSource provider None None None 0 (-1).

Definition set_scanner {Scanner} (sc : Scanner) (ds : JDBCDataSource Scanner) :
    JDBCDataSource Scanner :=
  mkJDBCDataSource (_provider ds) (_runtime_state ds) (_tuple_desc ds)
    (Some sc) (_rows_read ds) (_read_limit ds).

Definition set_rows_read {Scanner} (n : Z) (ds : JDBCDataSource Scanner) :
    JDBCDataSource Scanner :=
  mkJDBCDataSource (_provider ds) (_runtime_state ds) (_tuple_desc ds)
    (_scanner ds) n (_read_limit ds).

Definition set_state_and_tuple_desc {Scanner} (state : RuntimeState)
    (td : option TupleDescriptor) (ds : JDBCDataSource Scanner) :
    JDBCDataSource Scanner :=
  mkJDBCDataSource (_provider ds) (Some state) td
    (_scanner ds) (_rows_read ds) (_read_limit ds).

Section data_source.
Context {Row Scanner : Type} {ops : JDBCScannerOps Row Scanner}.
Context (driver_manager : JDBCDriverManager).

Local Abbreviation DataSource := (JDBCDataSource Scanner).

Definition _create_scanner (state : RuntimeState) (ds : DataSource) :
    outcome (Status * DataSource) :=
  let jdbc_scan_node := _jdbc_scan_node (_provider ds) in
  match _tuple_desc ds with
  | None => NullDereference
  | Some tuple_desc =>
      let tbl := table_desc tuple_desc in
      let driver_name := jdbc_driver_name tbl in
      let driver_url := jdbc_driver_url tbl in
      let driver_checksum := jdbc_driver_checksum tbl in
      let driver_class := jdbc_driver_class tbl in
      let '(status, driver_location) :=
        driver_manager driver_name driver_url driver_checksum in
      if negb (Status_ok status) then Done (status, ds)
      else
        let scan_ctx :=
          {| driver_path := driver_location;
             driver_class_name := driver_class;
             ctx_jdbc_url := jdbc_url tbl;
             user := jdbc_user tbl;
             passwd := jdbc_passwd tbl;
             sql := get_jdbc_sql (jdbc_table tbl) (columns jdbc_scan_node)
                      (filters jdbc_scan_node) (_read_limit ds) |} in
        let '(st, sc) := scanner_open (scanner_new scan_ctx tuple_desc) state in
        let ds := set_scanner sc ds in
        if negb (Status_ok st) then Done (st, ds)
        else Done (Status_OK, ds)
  end.

Definition open (state : RuntimeState) (ds : DataSource) :
    outcome (Status * DataSource) :=
  let jdbc_scan_node := _jdbc_scan_node (_provider ds) in
  let ds :=
    set_state_and_tuple_desc state
      (get_tuple_descriptor state (tuple_id jdbc_scan_node)) ds in
  match _create_scanner state ds with
  | Done (st, ds) =>
      if negb (Status_ok st) then Done (st, ds) else Done (Status_OK, ds)
  | NullDereference => NullDereference
  | OutOfFuel => OutOfFuel
  end.

(** [close] returns nothing: the two statuses of the scanner are dropped. *)
Definition close (state : RuntimeState) (ds : DataSource) : DataSource :=
  match _scanner ds with
  | Some sc =>
      let '(_, sc) := scanner_reset_jni_env sc in
      let '(_, sc) := scanner_close sc state in
      set_scanner sc ds
  | None => ds
  end.

(** The [do ... while] loop, repeated while [eos] is false and the chunk
    has no rows.  [inl]
    is the early return of [RETURN_IF_ERROR]; [inr] leaves the loop with
    the chunk and the flag of the last fetch. *)
Fixpoint fetch_loop (fuel : nat) (state : RuntimeState) (sc : Scanner) :
    outcome ((Status + bool) * Chunk Row * Scanner) :=
  match fuel with
  | O => OutOfFuel
  | S fuel =>
      let '(st, chunk, eos, sc) := scanner_get_next sc state in
      if negb (Status_ok st) then Done (inl st, chunk, sc)
      else if negb eos && (num_rows chunk =? 0) then fetch_loop fuel state sc
      else Done (inr eos, chunk, sc)
  end.

(** [chunk] is what the caller's chunk pointer holds on entry; the result
    carries what it holds on return. *)
Definition get_next (fuel : nat) (state : RuntimeState) (chunk : Chunk Row)
    (ds : DataSource) : outcome (Status * Chunk Row * DataSource) :=
  match _scanner ds with
  | None => NullDereference
  | Some sc =>
      let '(st, sc) := scanner_reset_jni_env sc in
      if negb (Status_ok st) then Done (st, chunk, set_scanner sc ds)
      else
        let chunk : Chunk Row := [] in
        match fetch_loop fuel state sc with
        | Done (inl st, chunk, sc) => Done (st, chunk, set_scanner sc ds)
        | Done (inr eos, chunk, sc) =>
            let ds := set_scanner sc ds in
            if eos then Done (Status_EndOfFile "", chunk, ds)
            else
              let ds := set_rows_read (int64_wrap (_rows_read ds + num_rows chunk)) ds in
              Done (Status_OK, chunk, ds)
        | NullDereference => NullDereference
        | OutOfFuel => OutOfFuel
        end
  end.

Definition raw_rows_read (ds : DataSource) : Z := _rows_read ds.
Definition num_rows_read (ds : DataSource) : Z := _rows_read ds.

(** ** A caller

    The calls a caller makes on one data source, and what it sees of
    each: the status of [open], a chunk handed over with an OK status, a
    [get_next] that ended otherwise, a [close]. *)

Inductive Call :=
  | CallOpen (state : RuntimeState)
  | CallGetNext (state : RuntimeState)
  | CallClose (state : RuntimeState).

Inductive Seen :=
  | SeenOpen (st : Status)
  | SeenChunk (chunk : Chunk Row)
  | SeenNoChunk (st : Status)
  | SeenClose.

Definition call (fuel : nat) (c : Call) (ds : DataSource) : outcome (Seen * DataSource) :=
  match c with
  | CallOpen state =>
      match open state ds with
      | Done (st, ds) => Done (SeenOpen st, ds)
      | NullDereference => NullDereference
      | OutOfFuel => OutOfFuel
      end
  | CallGetNext state =>
      match get_next fuel state [] ds with
      | Done (st, chunk, ds) =>
          Done (if Status_ok st then SeenChunk chunk else SeenNoChunk st, ds)
      | NullDereference => NullDereference
      | OutOfFuel => OutOfFuel
      end
  | CallClose state => Done (SeenClose, close state ds)
  end.

Fixpoint calls (fuel : nat) (cs : list Call) (ds : DataSource) :
    outcome (list Seen * DataSource) :=
  match cs with
  | [] => Done ([], ds)
  | c :: cs =>
      match call fuel c ds with
      | Done (seen, ds) =>
          match calls fuel cs ds with
          | Done (seens, ds) => Done (seen :: seens, ds)
          | NullDereference => NullDereference
          | OutOfFuel => OutOfFuel
          end
      | NullDereference => NullDereference
      | OutOfFuel => OutOfFuel
      end
  end.

Definition delivered (seens : list Seen) : list (Chunk Row) :=
  omap (λ s, match s with SeenChunk chunk => Some chunk | _ => None end) seens.

Definition total_rows (chunks : list (Chunk Row)) : Z :=
  foldr (λ chunk n, num_rows chunk + n) 0 chunks.

(** ** Fetches that the loop passes over

    [skips state k sc sc'] : starting at [sc], the next [k] fetches each
    succeed with a chunk without rows and without the end flag, and leave
    the scanner at [sc']. *)

Inductive skips (state : RuntimeState) : nat → Scanner → Scanner → Prop :=
  | skips_O sc : skips state O sc sc
  | skips_S k sc sc1 sc2 st chunk :
      scanner_get_next sc state = (st, chunk, false, sc1) →
      Status_ok st = true →
      num_rows chunk = 0 →
      skips state k sc1 sc2 →
      skips state (S k) sc sc2.

(** A fetch the loop stops at: an error, the end flag, or rows. *)
Definition settles (st : Status) (chunk : Chunk Row) (eos : bool) : Prop :=
  Status_ok st = false ∨ eos = true ∨ num_rows chunk ≠ 0.

(** What [get_next] returns once the loop has stopped at such a fetch. *)
Definition get_next_result (ds : DataSource) (st : Status) (chunk : Chunk Row)
    (eos : bool) (sc : Scanner) : Status * Chunk Row * DataSource :=
  if negb (Status_ok st) then (st, chunk, set_scanner sc ds)
  else if eos then (Status_EndOfFile "", chunk, set_scanner sc ds)
  else (Status_OK, chunk,
        set_rows_read (int64_wrap (_rows_read ds + num_rows chunk)) (set_scanner sc ds)).

(** A set of scanner states in which the end of the data has been
    reached for good: resetting succeeds, every fetch succeeds with the
    end flag, and both stay within the set. *)
Definition end_is_sticky (state : RuntimeState) (at_end : Scanner → Prop) : Prop :=
  ∀ sc, at_end sc →
    (∃ st sc', scanner_reset_jni_env sc = (st, sc') ∧ Status_ok st = true ∧ at_end sc')
    ∧ (∃ st chunk sc', scanner_get_next sc state = (st, chunk, true, sc')
         ∧ Status_ok st = true ∧ at_end sc').

End data_source.

(** ** A scripted scanner

    A stand-in for [JDBCScanner] that replays a script: each fetch
    answers with the next reply of the script, and with [after_script]
    once the script is used up.  It records the context it was built
    from and counts the calls of [open] and [close]. *)

Record Reply (Row : Type) := mkReply {
  reply_status : Status;
  reply_chunk : Chunk Row;
  reply_eos : bool;
}.
Arguments mkReply {Row}.
Arguments reply_status {Row}.
Arguments reply_chunk {Row}.
Arguments reply_eos {Row}.

Definition batch {Row} (rows : Chunk Row) : Reply Row := mkReply Status_OK rows false.
Definition end_of_data {Row} : Reply Row := mkReply Status_OK [] true.

Record ScriptedScanner (Row : Type) := mkScripted {
  seen_ctx : JDBCScanContext;
  script : list (Reply Row);
  after_script : Reply Row;
  open_calls : nat;
  close_calls : nat;
}.
Arguments mkScripted {Row}.
Arguments seen_ctx {Row}.
Arguments script {Row}.
Arguments after_script {Row}.
Arguments open_calls {Row}.
Arguments close_calls {Row}.

Definition scripted_get_next {Row} (sc : ScriptedScanner Row) :
    Status * Chunk Row * bool * ScriptedScanner Row :=
  match script sc with
  | [] =>
      let r := after_script sc in
      (reply_status r, reply_chunk r, reply_eos r, sc)
  | r :: rest =>
      (reply_status r, reply_chunk r, reply_eos r,
       mkScripted (seen_ctx sc) rest (after_script sc) (open_calls sc) (close_calls sc))
  end.

Definition scripted_ops {Row} (open_reply : Status) (replies : list (Reply Row))
    (after : Reply Row) : JDBCScannerOps Row (ScriptedScanner Row) :=
  {| scanner_new ctx _ := mkScripted ctx replies after 0 0;
     scanner_open sc _ :=
       (open_reply,
        mkScripted (seen_ctx sc) (script sc) (after_script sc)
          (S (open_calls sc)) (close_calls sc));
     scanner_reset_jni_env sc := (Status_OK, sc);
     scanner_get_next sc _ := scripted_get_next sc;
     scanner_close sc _ :=
       (Status_OK,
        mkScripted (seen_ctx sc) (script sc) (after_script sc)
          (open_calls sc) (S (close_calls sc))) |}.

(** ** Sample scans

    The table, plan node and run-time state of a small scan, a driver
    manager that resolves every driver and one that resolves none, and
    the scripts the properties below are tried on. *)

Definition sample_table : JDBCTableDescriptor :=
  {| jdbc_driver_name := "mysql";
     jdbc_driver_url := "http://repo/mysql.jar";
     jdbc_driver_checksum := "5d41402abc4b2a76";
     jdbc_driver_class := "com.mysql.jdbc.Driver";
     jdbc_url := "jdbc:mysql://host:3306/db";
     jdbc_table := "t";
     jdbc_user := "root";
     jdbc_passwd := "secret" |}.

Definition sample_state : RuntimeState :=
  {| desc_tbl := {[ 1 := {| table_desc := sample_table |} ]} |}.

Definition sample_provider : JDBCDataSourceProvider :=
  {| _jdbc_scan_node := {| tuple_id := 1; columns := ["a"; "b"]; filters := [] |} |}.

Definition resolving_manager : JDBCDriverManager :=
  λ name _ _, (Status_OK, "/drivers/" +:+ name).

Definition failing_manager : JDBCDriverManager :=
  λ name _ _, (Status_NotFound name, "").

(** Six fetches with the given chunks, then the end of the data. *)
Definition six_fetches {Row} (b1 b2 b3 b4 b5 b6 : Chunk Row) :
    JDBCScannerOps Row (ScriptedScanner Row) :=
  scripted_ops Status_OK
    [batch b1; batch b2; batch b3; batch b4; batch b5; batch b6] end_of_data.

(** A scanner that raises the end flag once and has rows afterwards. *)
Definition resumes_after_end : JDBCScannerOps nat (ScriptedScanner nat) :=
  scripted_ops Status_OK [end_of_data; batch [1; 2; 3; 4; 5]%nat] end_of_data.

(** A scanner that raises the end flag on a fetch that carries rows. *)
Definition rows_with_end : JDBCScannerOps nat (ScriptedScanner nat) :=
  scripted_ops Status_OK [batch []; mkReply Status_OK [7; 8]%nat true] end_of_data.

(** A scanner without data. *)
Definition no_data : JDBCScannerOps nat (ScriptedScanner nat) :=
  scripted_ops Status_OK [] end_of_data.

(** A data source in the middle of a scan, its scanner left with the
    given script. *)
Definition sample_ctx : JDBCScanContext :=
  {| driver_path := "/drivers/mysql";
     driver_class_name := "com.mysql.jdbc.Driver";
     ctx_jdbc_url := "jdbc:mysql://host:3306/db";
     user := "root";
     passwd := "secret";
     sql := "SELECT a, b FROM t" |}.

Definition scanning {Row} (replies : list (Reply Row)) (after : Reply Row) :
    JDBCDataSource (ScriptedScanner Row) :=
  set_scanner (mkScripted sample_ctx replies after 1 0)
    (new_JDBCDataSource sample_provider).

(** The scripted scanners that have nothing left but the end of the data. *)
Definition script_at_end {Row} (sc : ScriptedScanner Row) : Prop :=
  script sc = [] ∧ after_script sc = end_of_data.

(** The data source as [open] leaves it. *)
Definition opened {Row Scanner} {ops : JDBCScannerOps Row Scanner}
    (driver_manager : JDBCDriverManager) (state : RuntimeState)
    (provider : JDBCDataSourceProvider) : JDBCDataSource Scanner :=
  match open driver_manager state (new_JDBCDataSource provider) with
  | Done (_, ds) => ds
  | _ => new_JDBCDataSource provider
  end.

(** ** The factory layer

    [JDBCDataSourceProvider::create_data_source] builds a data source
    from the provider; the constructor of [JDBCDataSource] only records
    the provider and does not look at the scan range. *)

Definition create_data_source {Scanner ScanRange : Type}
    (provider : JDBCDataSourceProvider) (scan_range : ScanRange) :
    JDBCDataSource Scanner :=
  new_JDBCDataSource provider.

(** ** Scripts of chunks

    What is left of a list of chunks once the leading chunks without
    rows are dropped, the chunks that have rows, and a scripted scanner
    with another script. *)




(** A set of scanner states from which every fetch succeeds with a
    chunk without rows and without the end flag, and stays in the set. *)
Definition always_skipping {Row Scanner} {ops : JDBCScannerOps Row Scanner}
    (state : RuntimeState) (P : Scanner → Prop) : Prop :=
  ∀ sc, P sc →
    ∃ st (chunk : Chunk Row) sc',
      scanner_get_next sc state = (st, chunk, false, sc')
      ∧ Status_ok st = true ∧ num_rows chunk = 0 ∧ P sc'.

(** A scanner that answers every fetch with a chunk without rows. *)
Definition never_ending : JDBCScannerOps nat (ScriptedScanner nat) :=
  scripted_ops Status_OK [] (batch []).

(** A scanner whose reset fails. *)
Definition failing_reset : JDBCScannerOps nat (ScriptedScanner nat) :=
  {| scanner_new ctx _ := mkScripted ctx [] end_of_data 0 0;
     scanner_open sc _ := (Status_OK, sc);
     scanner_reset_jni_env sc := (Status_NotFound "jni", sc);
     scanner_get_next sc _ := scripted_get_next sc;
     scanner_close sc _ := (Status_OK, sc) |}.

(** A scripted scanner whose reset fails while its [close] still counts. *)
Definition unresettable : JDBCScannerOps nat (ScriptedScanner nat) :=
  {| scanner_new := scanner_new (JDBCScannerOps := scripted_ops Status_OK [] end_of_data);
     scanner_open := scanner_open (JDBCScannerOps := scripted_ops Status_OK [] end_of_data);
     scanner_reset_jni_env sc := (Status_NotFound "jni", sc);
     scanner_get_next sc _ := scripted_get_next sc;
     scanner_close := scanner_close (JDBCScannerOps := scripted_ops Status_OK [] end_of_data) |}.


(** * Properties of the generated query *)

Lemma append_cons a (s t : string) : String a s +:+ t = String a (s +:+ t).
Proof. reflexivity. Qed.

Lemma append_nil_l (s : string) : "" +:+ s = s.
Proof. reflexivity. Qed.

Lemma append_nil_r (s : string) : s +:+ "" = s.
Proof. induction s as [|a s IH]; [done|]. by rewrite append_cons, IH. Qed.

Lemma append_assoc (s t u : string) : (s +:+ t) +:+ u = s +:+ t +:+ u.
Proof. induction s as [|a s IH]; [done|]. by rewrite !append_cons, IH. Qed.

Lemma for_index_nil {St} (body : St → nat → string → St) st :
  for_index [] body st = st.
Proof. done. Qed.

Lemma for_index_cons {St} (body : St → nat → string → St) x v st :
  for_index (x :: v) body st
  = for_index v (λ acc i, body acc (S i)) (body st 0%nat x).
Proof.
  unfold for_index. cbn [length seq foldl].
  by rewrite <-fmap_S_seq, foldl_fmap.
Qed.

Lemma for_index_ext {St} (body body' : St → nat → string → St) v st :
  (∀ acc i x, body acc i x = body' acc i x) →
  for_index v body st = for_index v body' st.
Proof.
  revert body body' st. induction v as [|x v IH]; intros body body' st Hb; [done|].
  rewrite !for_index_cons, Hb. apply IH. intros; apply Hb.
Qed.

(** A loop that only appends writes the pieces one after the other. *)
Lemma for_index_append (piece : string → string) (v : list string) (oss : string) :
  for_index v (λ acc (_ : nat) x, acc << piece x) oss
  = oss +:+ foldr (λ x rest, piece x +:+ rest) "" v.
Proof.
  revert oss. induction v as [|x v IH]; intros oss.
  - by rewrite for_index_nil, append_nil_r.
  - rewrite for_index_cons, IH. cbn [foldr]. by rewrite append_assoc.
Qed.

Lemma concat_separated (sep : string) (piece : string → string) x (v : list string) :
  String.concat sep (piece <$> (x :: v))
  = piece x +:+ foldr (λ y rest, (sep +:+ piece y) +:+ rest) "" v.
Proof.
  revert x. induction v as [|y v IH]; intros x.
  - by rewrite append_nil_r.
  - change (String.concat sep (piece <$> x :: y :: v))
      with (piece x +:+ sep +:+ String.concat sep (piece <$> (y :: v))).
    rewrite IH. cbn [foldr]. by rewrite append_assoc.
Qed.

(** The loop with a separator before every element but the first. *)
Lemma for_index_separated (sep : string) (piece : string → string)
    (v : list string) (oss : string) :
  for_index v (λ acc i x, acc << (if Nat.eqb i 0 then "" else sep) << piece x) oss
  = oss +:+ String.concat sep (piece <$> v).
Proof.
  destruct v as [|x v].
  - by rewrite for_index_nil, append_nil_r.
  - rewrite for_index_cons, concat_separated. cbn [Nat.eqb].
    rewrite (for_index_ext _ (λ acc (_ : nat) y, acc << (sep +:+ piece y)))
      by (intros; apply append_assoc).
    by rewrite for_index_append, append_nil_r, append_assoc.
Qed.

Lemma get_jdbc_sql_render table columns filters limit :
  get_jdbc_sql table columns filters limit
  = render_query (query_clauses table columns filters limit).
Proof.
  unfold get_jdbc_sql, query_clauses.
  rewrite (for_index_ext _
    (λ acc i c, acc << (if Nat.eqb i 0 then "" else ",") << (" " +:+ c)) columns)
    by (intros; apply append_assoc).
  rewrite for_index_separated.
  rewrite (for_index_ext _
    (λ acc i f, acc << (if Nat.eqb i 0 then "" else " AND") << parenthesized f) filters)
    by (intros; unfold parenthesized; by rewrite !append_assoc).
  rewrite for_index_separated.
  unfold where_clauses, limit_clauses, render_query.
  destruct filters as [|f filters]; cbn [bool_decide negb];
    destruct (decide (limit = -1)) as [->|Hl].
  - cbn. by rewrite !append_nil_r, ?append_assoc.
  - apply Z.eqb_neq in Hl as ->. cbn -[String.concat].
    by rewrite !append_nil_r, ?append_assoc.
  - rewrite bool_decide_eq_false_2 by done. cbn -[String.concat].
    by rewrite !append_nil_r, ?append_assoc.
  - rewrite bool_decide_eq_false_2 by done.
    apply Z.eqb_neq in Hl as ->. cbn -[String.concat].
    by rewrite !append_nil_r, ?append_assoc.
Qed.

Lemma render_query_app cs1 cs2 :
  render_query (cs1 ++ cs2) = render_query cs1 +:+ render_query cs2.
Proof.
  induction cs1 as [|c cs1 IH]; [done|].
  cbn [app]. unfold render_query in *. cbn [foldr]. by rewrite IH, append_assoc.
Qed.

(** C3: the generated query is the rendering of one SELECT clause, one
    FROM clause, then a single WHERE clause exactly when there are
    filters (each filter in its own parentheses, joined by AND), then a
    LIMIT clause exactly when the limit is not -1, in this order; the two
    sample queries come out byte for byte. *)
Theorem get_jdbc_sql_clause_order table columns filters limit :
  (∃ w l,
      get_jdbc_sql table columns filters limit
      = render_query ([SelectClause columns; FromClause table] ++ w ++ l)
      ∧ w = (if decide (filters = []) then [] else [WhereClause filters])
      ∧ l = (if decide (limit = -1) then [] else [LimitClause limit]))
  ∧ render_clause (WhereClause filters)
    = " WHERE " +:+ String.concat " AND" ((λ f, "(" +:+ f +:+ ")") <$> filters)
  ∧ get_jdbc_sql "t" ["a"; "b"] [] (-1) = "SELECT a, b FROM t"
  ∧ get_jdbc_sql "t" ["a"] ["x>1"; "y<2"] 10
    = "SELECT a FROM t WHERE (x>1) AND(y<2) LIMIT 10".
Proof.
  split; [|split; [done|split; reflexivity]].
  exists (where_clauses filters), (limit_clauses limit).
  split; [apply get_jdbc_sql_render|]. split.
  - by destruct filters.
  - done.
Qed.

(** C4: with a limit other than -1 the query is the query without limit
    followed by one LIMIT clause, which is the last clause and the only
    LIMIT clause, after the WHERE clause; with the limit -1 there is no
    LIMIT clause. *)
Theorem get_jdbc_sql_limit_once table columns filters limit (Hlimit : limit ≠ -1) :
  get_jdbc_sql table columns filters limit
  = get_jdbc_sql table columns filters (-1) +:+ " LIMIT " +:+ put_int64 limit
  ∧ get_jdbc_sql table columns filters limit
    = render_query (query_clauses table columns filters limit)
  ∧ query_clauses table columns filters limit
    = ([SelectClause columns; FromClause table] ++ where_clauses filters)
        ++ [LimitClause limit]
  ∧ length (filter (λ c, is_limit_clause c = true)
              (query_clauses table columns filters limit)) = 1%nat
  ∧ get_jdbc_sql table columns filters (-1)
    = render_query ([SelectClause columns; FromClause table] ++ where_clauses filters)
  ∧ filter (λ c, is_limit_clause c = true) (query_clauses table columns filters (-1)) = [].
Proof.
  set (pre := [SelectClause columns; FromClause table] ++ where_clauses filters).
  assert (Hq : ∀ l, query_clauses table columns filters l = pre ++ limit_clauses l)
    by done.
  assert (Hw : filter (λ c, is_limit_clause c = true) pre = []).
  { unfold pre. by destruct filters. }
  assert (Hl : limit_clauses limit = [LimitClause limit]).
  { unfold limit_clauses. by rewrite decide_False. }
  assert (Hs : limit_clauses (-1) = []) by done.
  split; [|split; [apply get_jdbc_sql_render|]].
  - rewrite !get_jdbc_sql_render, !Hq, Hl, Hs, !render_query_app.
    unfold render_query at 2 4. cbn [foldr render_clause].
    by rewrite !append_nil_r.
  - rewrite !get_jdbc_sql_render, !Hq, Hl, Hs, !filter_app, Hw, app_nil_r.
    done.
Qed.

Lemma get_jdbc_sql_limit_once_witness :
  get_jdbc_sql "t" ["a"] ["x>1"; "y<2"] 10
  = get_jdbc_sql "t" ["a"] ["x>1"; "y<2"] (-1) +:+ " LIMIT " +:+ put_int64 10.
Proof.
  apply (get_jdbc_sql_limit_once "t" ["a"] ["x>1"; "y<2"] 10). lia.
Defined.

(** C9: without columns the query starts with SELECT, one space and
    FROM: nothing, and no star, stands for the missing column list. *)
Theorem get_jdbc_sql_no_columns table filters limit :
  get_jdbc_sql table [] filters limit
  = "SELECT FROM " +:+ table
      +:+ render_query (where_clauses filters ++ limit_clauses limit)
  ∧ String.prefix ("SELECT FROM " +:+ table) (get_jdbc_sql table [] filters limit) = true
  ∧ String.prefix "SELECT *" (get_jdbc_sql table [] filters limit) = false.
Proof.
  assert (H : get_jdbc_sql table [] filters limit
    = "SELECT FROM " +:+ table
        +:+ render_query (where_clauses filters ++ limit_clauses limit)).
  { rewrite get_jdbc_sql_render. unfold query_clauses.
    rewrite render_query_app. unfold render_query at 1.
    cbn [foldr render_clause fmap list_fmap String.concat].
    by rewrite !append_nil_r, <-!append_assoc. }
  rewrite H. split; [done|]. split; [|done].
  apply String.prefix_correct. rewrite <-append_assoc.
  generalize ("SELECT FROM " +:+ table) as s.
  generalize (render_query (where_clauses filters ++ limit_clauses limit)) as r.
  intros r s. induction s as [|a s IH]; [by destruct r|].
  rewrite append_cons. cbn [String.length String.substring]. by rewrite IH.
Qed.

(** * Properties of the scan *)

Lemma int64_wrap_small z : - 2 ^ 63 ≤ z ≤ int64_max → int64_wrap z = z.
Proof.
  unfold int64_wrap, int64_max. intros Hz.
  rewrite Z.mod_small by lia. lia.
Qed.

Lemma num_rows_nonneg {Row} (chunk : Chunk Row) : 0 ≤ num_rows chunk.
Proof. unfold num_rows. lia. Qed.

Section scan_properties.
Context {Row Scanner : Type} {ops : JDBCScannerOps Row Scanner}.
Implicit Types (ds : JDBCDataSource Scanner) (sc : Scanner) (chunk : Chunk Row).
Implicit Types (state : RuntimeState) (st : Status) (fuel : nat).

Lemma fetch_loop_skip fuel state sc st chunk sc1 :
  scanner_get_next sc state = (st, chunk, false, sc1) →
  Status_ok st = true → num_rows chunk = 0 →
  fetch_loop (S fuel) state sc = fetch_loop fuel state sc1.
Proof.
  intros Hf Hok Hn. cbn [fetch_loop]. rewrite Hf, Hok, Hn. done.
Qed.

Lemma fetch_loop_settle fuel state sc st chunk eos sc1 :
  scanner_get_next sc state = (st, chunk, eos, sc1) →
  settles st chunk eos →
  fetch_loop (S fuel) state sc
  = Done (if Status_ok st then inr eos else inl st, chunk, sc1).
Proof.
  intros Hf Hs. cbn [fetch_loop]. rewrite Hf.
  destruct (Status_ok st) eqn:Hok; cbn [negb]; [|done].
  destruct Hs as [?|[->|Hn]]; [congruence|done|].
  apply Z.eqb_neq in Hn as ->. by rewrite andb_false_r.
Qed.

(** Enough fuel: the loop returns as soon as a fetch settles. *)
Lemma fetch_loop_skips fuel state k sc sc0 st chunk eos sc1 :
  skips state k sc sc0 →
  scanner_get_next sc0 state = (st, chunk, eos, sc1) →
  settles st chunk eos →
  (k < fuel)%nat →
  fetch_loop fuel state sc
  = Done (if Status_ok st then inr eos else inl st, chunk, sc1).
Proof.
  intros Hk Hf Hs. revert fuel.
  induction Hk as [sc|k sc sc' sc0 st' chunk' Hf' Hok' Hn' Hk IH]; intros fuel Hlt.
  - destruct fuel as [|fuel]; [lia|]. by apply fetch_loop_settle.
  - destruct fuel as [|fuel]; [lia|].
    rewrite (fetch_loop_skip _ _ _ _ _ _ Hf' Hok' Hn'). apply IH; [done..|lia].
Qed.

(** Whatever the loop returns comes from a fetch that settles, reached
    over skipped fetches only. *)
Lemma fetch_loop_inv fuel state sc x chunk sc1 :
  fetch_loop fuel state sc = Done (x, chunk, sc1) →
  ∃ k sc0 st eos,
    (k < fuel)%nat ∧ skips state k sc sc0
    ∧ scanner_get_next sc0 state = (st, chunk, eos, sc1)
    ∧ settles st chunk eos
    ∧ x = (if Status_ok st then inr eos else inl st).
Proof.
  revert sc. induction fuel as [|fuel IH]; intros sc; [done|].
  cbn [fetch_loop].
  destruct (scanner_get_next sc state) as [[[st c] eos] sc'] eqn:Hf.
  destruct (Status_ok st) eqn:Hok; cbn [negb].
  - destruct (negb eos && (num_rows c =? 0)) eqn:Hc.
    + apply andb_true_iff in Hc as [He Hn].
      apply negb_true_iff in He as ->. apply Z.eqb_eq in Hn.
      intros (k & sc0 & st0 & eos0 & Hlt & Hk & Hrest)%IH.
      exists (S k), sc0, st0, eos0. split; [lia|]. split; [|done].
      by eapply skips_S.
    + intros [= <- <- <-]. exists O, sc, st, eos.
      split; [lia|]. split; [constructor|]. split; [done|].
      rewrite Hok. split; [|done]. right.
      apply andb_false_iff in Hc as [He|Hn].
      * left. by apply negb_false_iff.
      * right. by apply Z.eqb_neq.
  - intros [= <- <- <-]. exists O, sc, st, eos.
    split; [lia|]. split; [constructor|]. split; [done|].
    rewrite Hok. split; [by left|done].
Qed.

Lemma get_next_settled fuel state chunk0 ds sc st_r sc_r k sc0 st chunk eos sc1 :
  _scanner ds = Some sc →
  scanner_reset_jni_env sc = (st_r, sc_r) →
  Status_ok st_r = true →
  skips state k sc_r sc0 →
  scanner_get_next sc0 state = (st, chunk, eos, sc1) →
  settles st chunk eos →
  (k < fuel)%nat →
  get_next fuel state chunk0 ds = Done (get_next_result ds st chunk eos sc1).
Proof.
  intros Hsc Hr Hok Hk Hf Hs Hlt. unfold get_next, get_next_result.
  rewrite Hsc, Hr, Hok. cbn [negb].
  rewrite (fetch_loop_skips _ _ _ _ _ _ _ _ _ Hk Hf Hs Hlt).
  destruct (Status_ok st); cbn [negb]; [|done]. by destruct eos.
Qed.

Lemma get_next_inv fuel state chunk0 ds r :
  get_next fuel state chunk0 ds = Done r →
  ∃ sc st_r sc_r,
    _scanner ds = Some sc ∧ scanner_reset_jni_env sc = (st_r, sc_r)
    ∧ (Status_ok st_r = false ∧ r = (st_r, chunk0, set_scanner sc_r ds)
       ∨ Status_ok st_r = true
         ∧ ∃ k sc0 st chunk eos sc1,
             (k < fuel)%nat ∧ skips state k sc_r sc0
             ∧ scanner_get_next sc0 state = (st, chunk, eos, sc1)
             ∧ settles st chunk eos
             ∧ r = get_next_result ds st chunk eos sc1).
Proof.
  unfold get_next. destruct (_scanner ds) as [sc|] eqn:Hsc; [|done].
  destruct (scanner_reset_jni_env sc) as [st_r sc_r] eqn:Hr.
  intros Hg. exists sc, st_r, sc_r. split; [done|]. split; [done|].
  destruct (Status_ok st_r) eqn:Hok; cbn [negb] in Hg.
  - right. split; [done|].
    destruct (fetch_loop fuel state sc_r) as [[[x chunk] sc1]| |] eqn:Hl; [|done..].
    apply fetch_loop_inv in Hl as (k & sc0 & st & eos & Hlt & Hk & Hf & Hs & ->).
    exists k, sc0, st, chunk, eos, sc1. repeat (split; [done|]).
    unfold get_next_result.
    destruct (Status_ok st); cbn [negb]; [|by injection Hg].
    destruct eos; by injection Hg.
  - left. split; [done|]. by injection Hg.
Qed.

(** A chunk returned with an OK status: it has rows, it was fetched with
    the end flag down, and it has been counted. *)
Lemma get_next_ok fuel state chunk0 ds st chunk ds' :
  get_next fuel state chunk0 ds = Done (st, chunk, ds') →
  Status_ok st = true →
  0 < num_rows chunk
  ∧ ∃ sc0 st0 sc1,
      scanner_get_next sc0 state = (st0, chunk, false, sc1)
      ∧ ds' = set_rows_read (int64_wrap (_rows_read ds + num_rows chunk))
                (set_scanner sc1 ds).
Proof.
  intros Hg Hok.
  apply get_next_inv in Hg as (sc & st_r & sc_r & _ & _ & [[Hr [= -> _ _]]|[_ Hg]]).
  { congruence. }
  destruct Hg as (k & sc0 & st0 & c & eos & sc1 & _ & _ & Hf & Hs & Hg).
  unfold get_next_result in Hg.
  destruct (Status_ok st0) eqn:Hok0; cbn [negb] in Hg.
  - destruct eos; injection Hg as -> -> ->; [done|]. split.
    + destruct Hs as [?|[?|Hn]]; [congruence..|].
      pose proof (num_rows_nonneg c). lia.
    + by exists sc0, st0, sc1.
  - injection Hg as -> _ _. congruence.
Qed.

(** Any other return leaves the counter alone. *)
Lemma get_next_not_ok fuel state chunk0 ds st chunk ds' :
  get_next fuel state chunk0 ds = Done (st, chunk, ds') →
  Status_ok st = false →
  _rows_read ds' = _rows_read ds.
Proof.
  intros Hg Hok.
  apply get_next_inv in Hg as (sc & st_r & sc_r & _ & _ & [[_ [= _ _ ->]]|[_ Hg]]);
    [done|].
  destruct Hg as (k & sc0 & st0 & c & eos & sc1 & _ & _ & _ & _ & Hg).
  unfold get_next_result in Hg.
  destruct (Status_ok st0); cbn [negb] in Hg; [|by injection Hg as _ _ ->].
  destruct eos; injection Hg as -> _ ->; [done|]. done.
Qed.

(** C2: a chunk that [get_next] returns with an OK status has rows; a
    fetch that succeeds without rows and without the end flag is passed
    over and the next fetch follows at once; when a fetch raises the end
    flag, [get_next] returns end of file, not an OK chunk; and the first
    fetch that brings rows without the end flag is the one returned. *)
Theorem get_next_never_delivers_empty_chunk fuel state chunk0 ds :
  (∀ st chunk ds',
      get_next fuel state chunk0 ds = Done (st, chunk, ds') →
      Status_ok st = true → 0 < num_rows chunk)
  ∧ (∀ sc st chunk sc1,
      scanner_get_next sc state = (st, chunk, false, sc1) →
      Status_ok st = true → num_rows chunk = 0 →
      fetch_loop (S fuel) state sc = fetch_loop fuel state sc1)
  ∧ (∀ sc st_r sc_r k sc0 st chunk sc1,
      _scanner ds = Some sc →
      scanner_reset_jni_env sc = (st_r, sc_r) → Status_ok st_r = true →
      skips state k sc_r sc0 →
      scanner_get_next sc0 state = (st, chunk, true, sc1) → Status_ok st = true →
      (k < fuel)%nat →
      get_next fuel state chunk0 ds
      = Done (Status_EndOfFile "", chunk, set_scanner sc1 ds))
  ∧ (∀ sc st_r sc_r k sc0 st chunk sc1,
      _scanner ds = Some sc →
      scanner_reset_jni_env sc = (st_r, sc_r) → Status_ok st_r = true →
      skips state k sc_r sc0 →
      scanner_get_next sc0 state = (st, chunk, false, sc1) → Status_ok st = true →
      0 < num_rows chunk →
      (k < fuel)%nat →
      get_next fuel state chunk0 ds
      = Done (Status_OK, chunk,
              set_rows_read (int64_wrap (_rows_read ds + num_rows chunk))
                (set_scanner sc1 ds))).
Proof.
  split; [|split; [|split]].
  - intros st chunk ds' Hg Hok. by destruct (get_next_ok _ _ _ _ _ _ _ Hg Hok).
  - intros. by eapply fetch_loop_skip.
  - intros sc st_r sc_r k sc0 st chunk sc1 Hsc Hr Hokr Hk Hf Hok Hlt.
    rewrite (get_next_settled _ _ _ _ _ _ _ _ _ _ _ _ _ Hsc Hr Hokr Hk Hf) by
      (done || by right; left).
    unfold get_next_result. by rewrite Hok.
  - intros sc st_r sc_r k sc0 st chunk sc1 Hsc Hr Hokr Hk Hf Hok Hpos Hlt.
    rewrite (get_next_settled _ _ _ _ _ _ _ _ _ _ _ _ _ Hsc Hr Hokr Hk Hf) by
      (done || right; right; lia).
    unfold get_next_result. by rewrite Hok.
Qed.

(** C10: when the fetch that ends the loop raises the end flag together
    with a chunk that holds rows, [get_next] returns end of file, the
    caller sees no chunk and the counter stays as it was; a chunk that is
    returned with an OK status, and counted, comes from a fetch that left
    the end flag down. *)
Theorem get_next_drops_rows_fetched_with_eos fuel state chunk0 ds :
  (∀ sc st_r sc_r k sc0 st chunk sc1,
      _scanner ds = Some sc →
      scanner_reset_jni_env sc = (st_r, sc_r) → Status_ok st_r = true →
      skips state k sc_r sc0 →
      scanner_get_next sc0 state = (st, chunk, true, sc1) → Status_ok st = true →
      0 < num_rows chunk →
      (k < fuel)%nat →
      ∃ ds',
        get_next fuel state chunk0 ds = Done (Status_EndOfFile "", chunk, ds')
        ∧ Status_ok (Status_EndOfFile "") = false
        ∧ raw_rows_read ds' = raw_rows_read ds)
  ∧ (∀ st chunk ds',
      get_next fuel state chunk0 ds = Done (st, chunk, ds') →
      Status_ok st = true →
      ∃ sc0 st0 sc1,
        scanner_get_next sc0 state = (st0, chunk, false, sc1)
        ∧ _scanner ds' = Some sc1
        ∧ raw_rows_read ds' = int64_wrap (raw_rows_read ds + num_rows chunk)).
Proof.
  split.
  - intros sc st_r sc_r k sc0 st chunk sc1 Hsc Hr Hokr Hk Hf Hok _ Hlt.
    exists (set_scanner sc1 ds). split; [|done].
    rewrite (get_next_settled _ _ _ _ _ _ _ _ _ _ _ _ _ Hsc Hr Hokr Hk Hf) by
      (done || by right; left).
    unfold get_next_result. by rewrite Hok.
  - intros st chunk ds' Hg Hok.
    destruct (get_next_ok _ _ _ _ _ _ _ Hg Hok) as (_ & sc0 & st0 & sc1 & Hf & ->).
    by exists sc0, st0, sc1.
Qed.

(** ** The counter along a sequence of calls *)

Section counter.
Context (driver_manager : JDBCDriverManager).

Lemma open_fields state ds st ds' :
  open driver_manager state ds = Done (st, ds') →
  _rows_read ds' = _rows_read ds ∧ _provider ds' = _provider ds
  ∧ _read_limit ds' = _read_limit ds.
Proof.
  unfold open, _create_scanner. cbn [set_state_and_tuple_desc _tuple_desc].
  destruct (get_tuple_descriptor _ _) as [td|]; [|done].
  destruct (driver_manager _ _ _) as [status loc].
  destruct (Status_ok status); cbn [negb].
  - destruct (scanner_open _ _) as [st' sc].
    destruct (Status_ok st') eqn:Hok; cbn [negb]; rewrite ?Hok; cbn [negb];
      by intros [= <- <-].
  - destruct (Status_ok status); by intros [= <- <-].
Qed.

Lemma close_fields state ds :
  _rows_read (close state ds) = _rows_read ds
  ∧ _provider (close state ds) = _provider ds
  ∧ _read_limit (close state ds) = _read_limit ds.
Proof.
  unfold close. destruct (_scanner ds) as [sc|]; [|done].
  destruct (scanner_reset_jni_env sc) as [? sc1].
  by destruct (scanner_close sc1 state).
Qed.

(** One call: the counter moves only with a chunk handed over, by the
    rows of that chunk. *)
Lemma call_rows_read fuel c ds seen ds' :
  call driver_manager fuel c ds = Done (seen, ds') →
  match seen with
  | SeenChunk chunk =>
      0 < num_rows chunk
      ∧ _rows_read ds' = int64_wrap (_rows_read ds + num_rows chunk)
  | _ => _rows_read ds' = _rows_read ds
  end.
Proof.
  destruct c as [state|state|state]; cbn [call].
  - destruct (open _ _ _) as [[st ds1]| |] eqn:Ho; [|done..].
    intros [= <- <-]. by apply open_fields in Ho as [? _].
  - destruct (get_next _ _ _ _) as [[[st chunk] ds1]| |] eqn:Hg; [|done..].
    intros [= <- <-].
    destruct (Status_ok st) eqn:Hok.
    + by destruct (get_next_ok _ _ _ _ _ _ _ Hg Hok) as (? & ? & ? & ? & _ & ->).
    + by eapply get_next_not_ok.
  - intros [= <- <-]. apply close_fields.
Qed.

Lemma total_rows_cons chunk (chunks : list (Chunk Row)) :
  total_rows (chunk :: chunks) = num_rows chunk + total_rows chunks.
Proof. reflexivity. Qed.

Lemma total_rows_nonneg (chunks : list (Chunk Row)) : 0 ≤ total_rows chunks.
Proof.
  induction chunks as [|c chunks IH]; [done|].
  rewrite total_rows_cons. pose proof (num_rows_nonneg c). lia.
Qed.

Lemma total_rows_app (l1 l2 : list (Chunk Row)) :
  total_rows (l1 ++ l2) = total_rows l1 + total_rows l2.
Proof.
  induction l1 as [|c l1 IH]; [done|].
  rewrite <-app_comm_cons, !total_rows_cons. lia.
Qed.

Lemma delivered_app (s1 s2 : list (@Seen Row)) :
  delivered (s1 ++ s2) = delivered s1 ++ delivered s2.
Proof. apply omap_app. Qed.

Lemma calls_app fuel cs1 cs2 ds seens ds' :
  calls driver_manager fuel (cs1 ++ cs2) ds = Done (seens, ds') →
  ∃ seens1 ds1 seens2,
    calls driver_manager fuel cs1 ds = Done (seens1, ds1)
    ∧ calls driver_manager fuel cs2 ds1 = Done (seens2, ds')
    ∧ seens = seens1 ++ seens2.
Proof.
  revert ds seens. induction cs1 as [|c cs1 IH]; intros ds seens.
  - intros H. by exists [], ds, seens.
  - cbn [app calls].
    destruct (call _ _ c ds) as [[seen ds0]| |]; [|done..].
    destruct (calls _ _ (cs1 ++ cs2) ds0) as [[seens0 ds2]| |] eqn:Hc; [|done..].
    intros [= <- <-].
    apply IH in Hc as (seens1 & ds1 & seens2 & -> & ? & ->).
    by exists (seen :: seens1), ds1, seens2.
Qed.

Lemma calls_rows_read fuel cs ds seens ds' :
  calls driver_manager fuel cs ds = Done (seens, ds') →
  0 ≤ _rows_read ds →
  _rows_read ds + total_rows (delivered seens) ≤ int64_max →
  _rows_read ds' = _rows_read ds + total_rows (delivered seens)
  ∧ Forall (λ chunk, 0 < num_rows chunk) (delivered seens).
Proof.
  revert ds seens. induction cs as [|c cs IH]; intros ds seens.
  - intros [= <- <-] _ _. cbn. split; [lia|constructor].
  - cbn [calls].
    destruct (call _ _ c ds) as [[seen ds0]| |] eqn:H1; [|done..].
    destruct (calls _ _ cs ds0) as [[seens0 ds2]| |] eqn:Hc; [|done..].
    intros [= <- <-] H0 Hmax.
    apply call_rows_read in H1.
    pose proof (total_rows_nonneg (delivered seens0)) as Hnn.
    assert (Hstep : ∀ n, _rows_read ds0 = _rows_read ds + n → 0 ≤ n →
      total_rows (delivered (seen :: seens0)) = n + total_rows (delivered seens0) →
      _rows_read ds2 = _rows_read ds + total_rows (delivered (seen :: seens0))
      ∧ Forall (λ chunk, 0 < num_rows chunk) (delivered seens0)).
    { intros n Hn Hn0 Ht. rewrite Ht in Hmax |- *.
      destruct (IH _ _ Hc) as [-> ?]; [lia..|]. split; [lia|done]. }
    destruct seen as [st|chunk|st|]; cbn [delivered omap list_omap] in *;
      try (apply (Hstep 0); [lia|lia|unfold delivered; lia]).
    destruct H1 as [Hpos H1]. fold (delivered seens0) in *.
    rewrite total_rows_cons in Hmax.
    rewrite int64_wrap_small in H1 by (unfold int64_max in *; lia).
    destruct (Hstep (num_rows chunk)) as [? ?]; [lia|lia|done|].
    split; [done|by constructor].
Qed.

(** C8, amended: along any sequence of calls, as long as the counter
    starts at 0 or above and the rows handed over fit in 64 bits, the
    counter at every point of the sequence is the counter at the start
    plus the rows of the chunks handed over so far; it never goes down,
    every chunk handed over has rows, and a new data source starts at
    0. *)
Theorem rows_read_counts_delivered_rows fuel cs1 cs2 ds seens ds' :
  calls driver_manager fuel (cs1 ++ cs2) ds = Done (seens, ds') →
  0 ≤ raw_rows_read ds →
  raw_rows_read ds + total_rows (delivered seens) ≤ int64_max →
  ∃ seens1 ds1 seens2,
    calls driver_manager fuel cs1 ds = Done (seens1, ds1)
    ∧ calls driver_manager fuel cs2 ds1 = Done (seens2, ds')
    ∧ seens = seens1 ++ seens2
    ∧ raw_rows_read ds1 = raw_rows_read ds + total_rows (delivered seens1)
    ∧ raw_rows_read ds' = raw_rows_read ds1 + total_rows (delivered seens2)
    ∧ raw_rows_read ds ≤ raw_rows_read ds1 ≤ raw_rows_read ds'
    ∧ Forall (λ chunk, 0 < num_rows chunk) (delivered seens)
    ∧ ∀ provider, raw_rows_read (@new_JDBCDataSource Scanner provider) = 0.
Proof.
  unfold raw_rows_read. intros Hc H0 Hmax.
  destruct (calls_app _ _ _ _ _ _ Hc) as (seens1 & ds1 & seens2 & Hc1 & Hc2 & ->).
  exists seens1, ds1, seens2. do 3 (split; [done|]).
  rewrite delivered_app, total_rows_app in Hmax.
  pose proof (total_rows_nonneg (delivered seens1)).
  pose proof (total_rows_nonneg (delivered seens2)).
  destruct (calls_rows_read _ _ _ _ _ Hc1) as [E1 F1]; [lia..|].
  destruct (calls_rows_read _ _ _ _ _ Hc2) as [E2 F2]; [lia..|].
  rewrite delivered_app.
  split; [lia|]. split; [lia|]. split; [lia|]. split; [by apply Forall_app|done].
Qed.

Lemma open_with_driver state ds td status location :
  get_tuple_descriptor state (tuple_id (_jdbc_scan_node (_provider ds))) = Some td →
  driver_manager (jdbc_driver_name (table_desc td)) (jdbc_driver_url (table_desc td))
    (jdbc_driver_checksum (table_desc td)) = (status, location) →
  Status_ok status = true →
  ∃ ctx,
    sql ctx = get_jdbc_sql (jdbc_table (table_desc td))
                (columns (_jdbc_scan_node (_provider ds)))
                (filters (_jdbc_scan_node (_provider ds))) (_read_limit ds)
    ∧ open driver_manager state ds
      = Done (let st := (scanner_open (scanner_new ctx td) state).1 in
              if Status_ok st then Status_OK else st,
              set_scanner (scanner_open (scanner_new ctx td) state).2
                (set_state_and_tuple_desc state (Some td) ds)).
Proof.
  intros Htd Hm Hok.
  exists {| driver_path := location;
            driver_class_name := jdbc_driver_class (table_desc td);
            ctx_jdbc_url := jdbc_url (table_desc td);
            user := jdbc_user (table_desc td);
            passwd := jdbc_passwd (table_desc td);
            sql := get_jdbc_sql (jdbc_table (table_desc td))
                     (columns (_jdbc_scan_node (_provider ds)))
                     (filters (_jdbc_scan_node (_provider ds))) (_read_limit ds) |}.
  split; [done|]. unfold open, _create_scanner. rewrite Htd.
  cbn [set_state_and_tuple_desc _tuple_desc _provider _read_limit].
  rewrite Hm, Hok. cbn [negb].
  destruct (scanner_open _ _) as [st sc]. cbn [fst snd].
  destruct (Status_ok st) eqn:Hst; cbn [negb]; by rewrite ?Hst.
Qed.

(** ** Opening fails on the driver *)

Lemma close_without_scanner state ds : _scanner ds = None → close state ds = ds.
Proof. unfold close. by intros ->. Qed.

Lemma open_driver_failure state ds td status location :
  get_tuple_descriptor state (tuple_id (_jdbc_scan_node (_provider ds))) = Some td →
  driver_manager (jdbc_driver_name (table_desc td)) (jdbc_driver_url (table_desc td))
    (jdbc_driver_checksum (table_desc td)) = (status, location) →
  Status_ok status = false →
  open driver_manager state ds
  = Done (status, set_state_and_tuple_desc state (Some td) ds).
Proof.
  intros Htd Hm Hok. unfold open, _create_scanner.
  rewrite Htd. cbn [set_state_and_tuple_desc _tuple_desc].
  rewrite Hm, Hok. cbn [negb]. by rewrite Hok.
Qed.

(** C7: when the driver manager fails to resolve the driver, [open] on
    a new data source returns that very status and creates no scanner;
    afterwards [close] changes nothing, however often it is called, and
    the counter reads 0. *)
Theorem open_driver_resolution_failure provider state td status location :
  get_tuple_descriptor state (tuple_id (_jdbc_scan_node provider)) = Some td →
  driver_manager (jdbc_driver_name (table_desc td)) (jdbc_driver_url (table_desc td))
    (jdbc_driver_checksum (table_desc td)) = (status, location) →
  Status_ok status = false →
  ∃ ds' : JDBCDataSource Scanner,
    open driver_manager state (new_JDBCDataSource provider) = Done (status, ds')
    ∧ _scanner ds' = None
    ∧ raw_rows_read ds' = 0
    ∧ (∀ state', close state' ds' = ds')
    ∧ (∀ state' state'', close state'' (close state' ds') = ds')
    ∧ (∀ state', raw_rows_read (close state' ds') = 0).
Proof.
  intros Htd Hm Hok. eexists. split.
  - by apply (open_driver_failure _ _ td status location).
  - assert (Hc : ∀ state',
      close state' (set_state_and_tuple_desc state (Some td)
                      (@new_JDBCDataSource Scanner provider))
      = set_state_and_tuple_desc state (Some td) (new_JDBCDataSource provider))
      by (intros; by apply close_without_scanner).
    split; [done|]. split; [done|]. split; [done|].
    split; intros; by rewrite !Hc.
Qed.

(** ** The end of the data *)

Lemma get_next_at_end (at_end : Scanner → Prop) state fuel chunk0 ds sc :
  end_is_sticky state at_end →
  _scanner ds = Some sc → at_end sc → (0 < fuel)%nat →
  ∃ chunk sc',
    get_next fuel state chunk0 ds
    = Done (Status_EndOfFile "", chunk, set_scanner sc' ds)
    ∧ at_end sc'.
Proof.
  intros Hsticky Hsc Hend Hfuel.
  destruct (Hsticky sc Hend) as [(st_r & sc_r & Hr & Hokr & Hend_r) _].
  destruct (Hsticky sc_r Hend_r) as [_ (st & chunk & sc' & Hf & Hok & Hend')].
  exists chunk, sc'. split; [|done].
  rewrite (get_next_settled fuel state chunk0 ds sc st_r sc_r 0 sc_r st chunk true sc');
    [|done|done|done|constructor|done|by right; left|done].
  unfold get_next_result. by rewrite Hok.
Qed.

(** C5, amended: a scanner that has reached the end of its data, and
    from then on keeps answering a reset with success and a fetch with
    the end flag, makes every further [get_next] return the same end of
    file status and leave the counter as it is. *)
Theorem get_next_end_of_data_repeats (at_end : Scanner → Prop) state n fuel ds sc :
  end_is_sticky state at_end →
  _scanner ds = Some sc → at_end sc → (0 < fuel)%nat →
  ∃ ds',
    calls driver_manager fuel (replicate n (CallGetNext state)) ds
    = Done (replicate n (SeenNoChunk (Status_EndOfFile "")), ds')
    ∧ raw_rows_read ds' = raw_rows_read ds
    ∧ ∃ sc', _scanner ds' = Some sc' ∧ at_end sc'.
Proof.
  intros Hsticky Hsc Hend Hfuel. revert ds sc Hsc Hend.
  induction n as [|n IH]; intros ds sc Hsc Hend.
  - exists ds. split; [done|]. split; [done|]. by exists sc.
  - destruct (get_next_at_end at_end state fuel [] ds sc)
      as (chunk & sc' & Hg & Hend'); [done..|].
    destruct (IH (set_scanner sc' ds) sc') as (ds' & Hc & Hrows & Hsc'); [done..|].
    exists ds'. split; [|by split].
    cbn [replicate calls call]. by rewrite Hg, Hc.
Qed.

End counter.

End scan_properties.

(** * Scans against scripted scanners *)

(** C1: a scanner that answers six fetches with chunks of 0, 0, 5, 0, 3
    and 0 rows and then raises the end flag: after [open] the counter
    reads 0; the first [get_next] returns the chunk of 5 rows with an OK
    status, the second the chunk of 3 rows with an OK status, the third
    end of file; the caller has then been handed exactly these two
    chunks, in this order, and the counter reads 8. *)
Theorem scan_of_six_fetches {Row} (b1 b2 b3 b4 b5 b6 : Chunk Row)
    driver_manager provider state td location fuel :
  length b1 = 0%nat → length b2 = 0%nat → length b3 = 5%nat →
  length b4 = 0%nat → length b5 = 3%nat → length b6 = 0%nat →
  get_tuple_descriptor state (tuple_id (_jdbc_scan_node provider)) = Some td →
  driver_manager (jdbc_driver_name (table_desc td)) (jdbc_driver_url (table_desc td))
    (jdbc_driver_checksum (table_desc td)) = (Status_OK, location) →
  (3 ≤ fuel)%nat →
  ∃ ds0 ds1 ds2 ds3,
    open (ops := six_fetches b1 b2 b3 b4 b5 b6) driver_manager state
      (new_JDBCDataSource provider) = Done (Status_OK, ds0)
    ∧ raw_rows_read ds0 = 0
    ∧ get_next (ops := six_fetches b1 b2 b3 b4 b5 b6) fuel state [] ds0
      = Done (Status_OK, b3, ds1)
    ∧ raw_rows_read ds1 = 5
    ∧ get_next (ops := six_fetches b1 b2 b3 b4 b5 b6) fuel state [] ds1
      = Done (Status_OK, b5, ds2)
    ∧ raw_rows_read ds2 = 8
    ∧ get_next (ops := six_fetches b1 b2 b3 b4 b5 b6) fuel state [] ds2
      = Done (Status_EndOfFile "", [], ds3)
    ∧ raw_rows_read ds3 = 8
    ∧ calls (ops := six_fetches b1 b2 b3 b4 b5 b6) driver_manager fuel
        [CallOpen state; CallGetNext state; CallGetNext state; CallGetNext state]
        (new_JDBCDataSource provider)
      = Done ([SeenOpen Status_OK; SeenChunk b3; SeenChunk b5;
               SeenNoChunk (Status_EndOfFile "")], ds3)
    ∧ delivered [SeenOpen Status_OK; SeenChunk b3; SeenChunk b5;
                 SeenNoChunk (Status_EndOfFile "")] = [b3; b5].
Proof.
  intros H1 H2 H3 H4 H5 H6 Htd Hm Hfuel.
  destruct b1; [|done]. destruct b2; [|done]. destruct b4; [|done]. destruct b6; [|done].
  destruct b3 as [|r1 [|r2 [|r3 [|r4 [|r5 [|]]]]]]; try done.
  destruct b5 as [|q1 [|q2 [|q3 [|]]]]; try done.
  destruct fuel as [|[|[|fuel]]]; try lia.
  destruct (open_with_driver (ops := six_fetches [] [] [r1; r2; r3; r4; r5] [] [q1; q2; q3] [])
    driver_manager state (new_JDBCDataSource provider) td Status_OK location)
    as (ctx & _ & Ho); [done..|].
  cbn [calls call]. rewrite Ho.
  eexists _, _, _, _. split; [lazy; reflexivity|].
  split; [reflexivity|].
  split; [lazy; reflexivity|]. split; [reflexivity|].
  split; [lazy; reflexivity|]. split; [reflexivity|].
  split; [lazy; reflexivity|]. split; [reflexivity|].
  split; [lazy; reflexivity|]. reflexivity.
Qed.

Lemma scan_of_six_fetches_witness :
  ∃ ds3,
    calls (ops := six_fetches [] [] [1; 2; 3; 4; 5]%nat [] [6; 7; 8]%nat [])
      resolving_manager 3
      [CallOpen sample_state; CallGetNext sample_state; CallGetNext sample_state;
       CallGetNext sample_state]
      (new_JDBCDataSource sample_provider)
    = Done ([SeenOpen Status_OK; SeenChunk [1; 2; 3; 4; 5]%nat; SeenChunk [6; 7; 8]%nat;
             SeenNoChunk (Status_EndOfFile "")], ds3)
    ∧ raw_rows_read ds3 = 8.
Proof.
  destruct (scan_of_six_fetches (Row := nat) [] [] [1; 2; 3; 4; 5]%nat [] [6; 7; 8]%nat []
    resolving_manager sample_provider sample_state {| table_desc := sample_table |}
    "/drivers/mysql" 3) as (ds0 & ds1 & ds2 & ds3 & H);
    [reflexivity..|lia|].
  exists ds3. split; [apply H|apply H].
Defined.

Lemma get_next_never_delivers_empty_chunk_witness :
  0 < num_rows [1; 2]%nat
  ∧ fetch_loop (ops := no_data) 3 sample_state
      (mkScripted sample_ctx [batch []; end_of_data] end_of_data 1 0)
    = fetch_loop (ops := no_data) 2 sample_state
        (mkScripted sample_ctx [end_of_data] end_of_data 1 0)
  ∧ get_next (ops := no_data) 2 sample_state [] (scanning [batch []; end_of_data] end_of_data)
    = Done (Status_EndOfFile "", [],
            set_scanner (mkScripted sample_ctx [] end_of_data 1 0)
              (scanning [batch []; end_of_data] end_of_data)).
Proof.
  split; [|split].
  - eapply (proj1 (get_next_never_delivers_empty_chunk (ops := no_data) 2 sample_state []
      (scanning [batch []; batch [1; 2]%nat] end_of_data)) Status_OK [1; 2]%nat);
      [lazy; reflexivity|reflexivity].
  - eapply (proj1 (proj2 (get_next_never_delivers_empty_chunk (ops := no_data) 2
      sample_state [] (scanning [] end_of_data)))); reflexivity.
  - apply (proj1 (proj2 (proj2 (get_next_never_delivers_empty_chunk (ops := no_data) 2
      sample_state [] (scanning [batch []; end_of_data] end_of_data))))
      (mkScripted sample_ctx [batch []; end_of_data] end_of_data 1 0) Status_OK
      (mkScripted sample_ctx [batch []; end_of_data] end_of_data 1 0) 1%nat
      (mkScripted sample_ctx [end_of_data] end_of_data 1 0) Status_OK);
      [reflexivity|reflexivity|reflexivity| |reflexivity|reflexivity|lia].
    eapply skips_S; [reflexivity|reflexivity|reflexivity|constructor].
Defined.

Lemma get_next_drops_rows_fetched_with_eos_witness :
  ∃ ds',
    get_next (ops := rows_with_end) 2 sample_state []
      (scanning [batch []; mkReply Status_OK [7; 8]%nat true] end_of_data)
    = Done (Status_EndOfFile "", [7; 8]%nat, ds')
    ∧ Status_ok (Status_EndOfFile "") = false
    ∧ raw_rows_read ds'
      = raw_rows_read (scanning [batch []; mkReply Status_OK [7; 8]%nat true] end_of_data).
Proof.
  apply (proj1 (get_next_drops_rows_fetched_with_eos (ops := rows_with_end) 2
    sample_state [] (scanning [batch []; mkReply Status_OK [7; 8]%nat true] end_of_data))
    (mkScripted sample_ctx [batch []; mkReply Status_OK [7; 8]%nat true] end_of_data 1 0)
    Status_OK
    (mkScripted sample_ctx [batch []; mkReply Status_OK [7; 8]%nat true] end_of_data 1 0)
    1%nat
    (mkScripted sample_ctx [mkReply Status_OK [7; 8]%nat true] end_of_data 1 0)
    Status_OK [7; 8]%nat (mkScripted sample_ctx [] end_of_data 1 0));
    [reflexivity|reflexivity|reflexivity| |reflexivity|reflexivity|reflexivity|lia].
  eapply skips_S; [reflexivity|reflexivity|reflexivity|constructor].
Defined.

Lemma rows_read_counts_delivered_rows_witness :
  let ds := scanning [batch []; batch []; batch [1; 2; 3; 4; 5]%nat; batch [];
                      batch [6; 7; 8]%nat; batch []] end_of_data in
  ∃ seens ds' seens1 ds1,
    calls (ops := no_data) resolving_manager 3
      ([CallGetNext sample_state]
         ++ [CallGetNext sample_state; CallGetNext sample_state; CallClose sample_state])
      ds = Done (seens, ds')
    ∧ calls (ops := no_data) resolving_manager 3 [CallGetNext sample_state] ds
      = Done (seens1, ds1)
    ∧ raw_rows_read ds1 = raw_rows_read ds + total_rows (delivered seens1)
    ∧ raw_rows_read ds ≤ raw_rows_read ds1 ≤ raw_rows_read ds'.
Proof.
  intros ds. eexists _, _.
  assert (Hc : calls (ops := no_data) resolving_manager 3
      ([CallGetNext sample_state]
         ++ [CallGetNext sample_state; CallGetNext sample_state; CallClose sample_state])
      ds = _)
    by (generalize sample_state; intros state; lazy; reflexivity).
  destruct (rows_read_counts_delivered_rows (ops := no_data)
    resolving_manager _ _ _ _ _ _ Hc)
    as (seens1 & ds1 & seens2 & Hc1 & Hc2 & Hs & E1 & E2 & Hle & _);
    [vm_compute; discriminate|vm_compute; discriminate|].
  exists seens1, ds1. split; [exact Hc|]. split; [exact Hc1|]. split; [exact E1|exact Hle].
Defined.

Lemma open_driver_resolution_failure_witness :
  ∃ ds' : JDBCDataSource (ScriptedScanner nat),
    open (ops := no_data) failing_manager sample_state (new_JDBCDataSource sample_provider)
    = Done (Status_NotFound "mysql", ds')
    ∧ _scanner ds' = None
    ∧ raw_rows_read ds' = 0
    ∧ (∀ state', close (ops := no_data) state' ds' = ds')
    ∧ (∀ state' state'',
         close (ops := no_data) state'' (close (ops := no_data) state' ds') = ds')
    ∧ (∀ state', raw_rows_read (close (ops := no_data) state' ds') = 0).
Proof.
  apply (open_driver_resolution_failure (ops := no_data) failing_manager sample_provider
    sample_state {| table_desc := sample_table |} (Status_NotFound "mysql") "");
    reflexivity.
Defined.

(** ** When the scanner goes on after the end *)

Lemma scripted_end_is_sticky {Row} open_reply replies after state :
  end_is_sticky (ops := scripted_ops (Row := Row) open_reply replies after) state
    script_at_end.
Proof.
  intros sc [Hs Ha]. split.
  - by exists Status_OK, sc.
  - exists Status_OK, [], sc. cbn [scanner_get_next scripted_ops].
    unfold scripted_get_next. rewrite Hs, Ha. done.
Qed.

Lemma get_next_end_of_data_repeats_witness :
  ∃ ds',
    calls (ops := no_data) resolving_manager 1 (replicate 3 (CallGetNext sample_state))
      (scanning [] end_of_data)
    = Done (replicate 3 (SeenNoChunk (Status_EndOfFile "")), ds')
    ∧ raw_rows_read ds' = raw_rows_read (scanning (Row := nat) [] end_of_data)
    ∧ ∃ sc', _scanner ds' = Some sc' ∧ script_at_end sc'.
Proof.
  apply (get_next_end_of_data_repeats (ops := no_data) resolving_manager script_at_end
    sample_state 3 1 (scanning [] end_of_data) (mkScripted sample_ctx [] end_of_data 1 0)).
  - apply scripted_end_is_sticky.
  - reflexivity.
  - split; reflexivity.
  - lia.
Defined.

(** The claim C5 as it stands fails on a scanner that raises the end
    flag and has rows on the fetch after: the first [get_next] returns
    end of file, the second hands over five rows with an OK status and
    moves the counter from 0 to 5. *)
Lemma get_next_after_end_of_data_resumes :
  ∃ ds1 ds2,
    call (ops := resumes_after_end) resolving_manager 1 (CallGetNext sample_state)
      (scanning [end_of_data; batch [1; 2; 3; 4; 5]%nat] end_of_data)
    = Done (SeenNoChunk (Status_EndOfFile ""), ds1)
    ∧ call (ops := resumes_after_end) resolving_manager 1 (CallGetNext sample_state) ds1
      = Done (SeenChunk [1; 2; 3; 4; 5]%nat, ds2)
    ∧ raw_rows_read ds1 = 0
    ∧ raw_rows_read ds2 = 5
    ∧ raw_rows_read ds2 ≠ raw_rows_read ds1.
Proof.
  generalize sample_state; intros state.
  eexists _, _. split; [lazy; reflexivity|]. split; [lazy; reflexivity|].
  split; [reflexivity|]. split; [reflexivity|]. vm_compute; discriminate.
Qed.

(** ** Closing more than once *)

Lemma close_scripted {Row} open_reply replies after state
    (ds : JDBCDataSource (ScriptedScanner Row)) sc :
  _scanner ds = Some sc →
  close (ops := scripted_ops open_reply replies after) state ds
  = set_scanner (mkScripted (seen_ctx sc) (script sc) (after_script sc)
                   (open_calls sc) (S (close_calls sc))) ds.
Proof. unfold close. by intros ->. Qed.

Lemma close_with_scanner {Row Scanner} {ops : JDBCScannerOps Row Scanner}
    state (ds : JDBCDataSource Scanner) sc :
  _scanner ds = Some sc →
  close state ds
  = set_scanner (scanner_close (scanner_reset_jni_env sc).2 state).2 ds.
Proof.
  unfold close. intros ->.
  destruct (scanner_reset_jni_env sc) as [st1 sc1]. cbn [snd].
  by destruct (scanner_close sc1 state).
Qed.

(** C6, amended: [close] returns no status, so no call of it reports an
    error; it never touches the counter; without a scanner it changes
    nothing, however often it is called; with a scanner, whatever
    scanner it is, every call resets the scanner and then closes it,
    whatever the two statuses, and changes nothing else, so that [n]
    calls of [close] are [n] resets and [n] calls of the scanner's
    [close]: on the scripted scanner the count of closes goes up by
    [n]. *)
Theorem close_forwards_every_call {Row} state n :
  (∀ Scanner (ops : JDBCScannerOps Row Scanner) (ds : JDBCDataSource Scanner),
      raw_rows_read (Nat.iter n (close state) ds) = raw_rows_read ds
      ∧ (_scanner ds = None → Nat.iter n (close state) ds = ds)
      ∧ (∀ sc, _scanner ds = Some sc →
           close state ds
           = set_scanner (scanner_close (scanner_reset_jni_env sc).2 state).2 ds
           ∧ _scanner (Nat.iter n (close state) ds)
             = Some (Nat.iter n
                       (λ sc, (scanner_close (scanner_reset_jni_env sc).2 state).2) sc)
           ∧ _provider (Nat.iter n (close state) ds) = _provider ds
           ∧ _runtime_state (Nat.iter n (close state) ds) = _runtime_state ds
           ∧ _tuple_desc (Nat.iter n (close state) ds) = _tuple_desc ds
           ∧ _read_limit (Nat.iter n (close state) ds) = _read_limit ds))
  ∧ (∀ open_reply replies after (ds : JDBCDataSource (ScriptedScanner Row)) sc,
      _scanner ds = Some sc →
      ∃ sc',
        _scanner (Nat.iter n (close (ops := scripted_ops open_reply replies after) state) ds)
        = Some sc'
        ∧ close_calls sc' = (close_calls sc + n)%nat
        ∧ script sc' = script sc).
Proof.
  split.
  - intros Scanner ops ds. split; [|split].
    + induction n as [|n IH]; [done|].
      rewrite Nat.iter_succ. unfold raw_rows_read in *.
      destruct (close_fields state (Nat.iter n (close state) ds)) as [E _].
      by rewrite E.
    + intros Hn. induction n as [|n IH]; [done|].
      rewrite Nat.iter_succ, IH. by apply close_without_scanner.
    + intros sc Hsc. split; [by apply close_with_scanner|].
      induction n as [|n (IH1 & IH2 & IH3 & IH4 & IH5)]; [done|].
      rewrite !Nat.iter_succ. rewrite (close_with_scanner _ _ _ IH1).
      cbn [set_scanner _scanner _provider _runtime_state _tuple_desc _read_limit].
      done.
  - intros open_reply replies after ds sc Hsc.
    induction n as [|n (sc' & Hsc' & Hn & Hs)].
    + exists sc. split; [done|]. split; [lia|done].
    + rewrite Nat.iter_succ, (close_scripted _ _ _ _ _ sc' Hsc').
      eexists. split; [reflexivity|]. cbn. split; [lia|done].
Qed.

Lemma close_forwards_every_call_witness :
  Nat.iter 2 (close (ops := no_data) sample_state) (new_JDBCDataSource sample_provider)
  = new_JDBCDataSource sample_provider
  ∧ _scanner (Nat.iter 2 (close (ops := unresettable) sample_state)
                (scanning [] end_of_data))
    = Some (mkScripted sample_ctx [] end_of_data 1 2)
  ∧ ∃ sc',
      _scanner (Nat.iter 2 (close (ops := no_data) sample_state) (scanning [] end_of_data))
      = Some sc'
      ∧ close_calls sc' = (0 + 2)%nat
      ∧ script sc' = [].
Proof.
  split; [|split].
  - apply (proj1 (proj2 (proj1 (close_forwards_every_call (Row := nat) sample_state 2)
      (ScriptedScanner nat) no_data (new_JDBCDataSource sample_provider)))).
    reflexivity.
  - apply (proj1 (proj2 (proj2 (proj2 (proj1
      (close_forwards_every_call (Row := nat) sample_state 2)
      (ScriptedScanner nat) unresettable (scanning [] end_of_data)))
      (mkScripted sample_ctx [] end_of_data 1 0) eq_refl))).
  - apply (proj2 (close_forwards_every_call (Row := nat) sample_state 2)
      Status_OK [] end_of_data (scanning [] end_of_data)
      (mkScripted sample_ctx [] end_of_data 1 0)).
    reflexivity.
Defined.

(** The claim C6 as it stands fails on its second part: two calls of
    [close] on a data source that has been opened close its scanner
    twice. *)
Lemma close_twice_closes_scanner_twice :
  ∃ sc,
    _scanner (close (ops := no_data) sample_state
                (close (ops := no_data) sample_state
                   (opened (ops := no_data) resolving_manager sample_state sample_provider)))
    = Some sc
    ∧ open_calls sc = 1%nat
    ∧ close_calls sc = 2%nat
    ∧ ¬ (close_calls sc ≤ 1)%nat.
Proof.
  eexists. split; [vm_compute; reflexivity|].
  split; [reflexivity|]. split; [reflexivity|]. cbn. lia.
Qed.

(** * Further properties of the generated query *)

Lemma put_int64_negative limit :
  limit < 0 → put_int64 limit = "-" +:+ put_int64 (- limit).
Proof. by destruct limit. Qed.

(** X1: only -1 stands for "no limit": the limit 0 and every limit below
    -1 are written into the query as they are, the latter with their
    minus sign. *)
Theorem get_jdbc_sql_limit_edge table columns filters limit :
  get_jdbc_sql table columns filters 0
  = get_jdbc_sql table columns filters (-1) +:+ " LIMIT 0"
  ∧ (limit < -1 →
     get_jdbc_sql table columns filters limit
     = get_jdbc_sql table columns filters (-1) +:+ " LIMIT -" +:+ put_int64 (- limit)).
Proof.
  assert (H : ∀ l, l ≠ -1 →
    get_jdbc_sql table columns filters l
    = get_jdbc_sql table columns filters (-1) +:+ " LIMIT " +:+ put_int64 l).
  { intros l Hl. rewrite !get_jdbc_sql_render. unfold query_clauses, limit_clauses.
    rewrite decide_False, decide_True by done.
    rewrite !app_assoc, app_nil_r, render_query_app.
    unfold render_query at 2. cbn [foldr render_clause]. by rewrite append_nil_r. }
  split.
  - by rewrite H.
  - intros Hl. rewrite H, put_int64_negative by lia. done.
Qed.

Lemma get_jdbc_sql_limit_edge_witness :
  get_jdbc_sql "t" ["a"] [] (-5) = get_jdbc_sql "t" ["a"] [] (-1) +:+ " LIMIT -5".
Proof.
  apply (proj2 (get_jdbc_sql_limit_edge "t" ["a"] [] (-5))). lia.
Defined.

Lemma concat_split_last sep (l : list string) x y :
  String.concat sep (l ++ [x +:+ sep +:+ y]) = String.concat sep (l ++ [x; y]).
Proof.
  induction l as [|u l IH]; [done|]. destruct l as [|v l]; [done|].
  change (String.concat sep ((u :: v :: l) ++ [x +:+ sep +:+ y]))
    with (u +:+ sep +:+ String.concat sep ((v :: l) ++ [x +:+ sep +:+ y])).
  change (String.concat sep ((u :: v :: l) ++ [x; y]))
    with (u +:+ sep +:+ String.concat sep ((v :: l) ++ [x; y])).
  by rewrite IH.
Qed.

(** X2: nothing is escaped.  A filter that holds the text between two
    filters is the same query as the two filters, and a column that
    holds the text between two columns is the same query as the two
    columns: the query does not determine the lists it was built from. *)
Theorem get_jdbc_sql_not_injective table columns filters limit (a b : string) :
  get_jdbc_sql table columns (filters ++ [a +:+ ") AND(" +:+ b]) limit
  = get_jdbc_sql table columns (filters ++ [a; b]) limit
  ∧ get_jdbc_sql table (columns ++ [a +:+ ", " +:+ b]) filters limit
    = get_jdbc_sql table (columns ++ [a; b]) filters limit.
Proof.
  rewrite !get_jdbc_sql_render. unfold query_clauses, render_query. split.
  - assert (Hw : ∀ z, where_clauses (filters ++ [z]) = [WhereClause (filters ++ [z])])
      by (intros; by destruct filters).
    assert (Hw2 : where_clauses (filters ++ [a; b]) = [WhereClause (filters ++ [a; b])])
      by (by destruct filters).
    rewrite Hw, Hw2. cbn [app foldr render_clause].
    rewrite !fmap_app.
    change (parenthesized <$> [a; b]) with [parenthesized a; parenthesized b].
    rewrite <-concat_split_last.
    change (parenthesized <$> [a +:+ ") AND(" +:+ b])
      with [parenthesized (a +:+ ") AND(" +:+ b)].
    unfold parenthesized. by rewrite !append_assoc.
  - cbn [app foldr render_clause]. rewrite !fmap_app.
    change ((λ c, " " +:+ c) <$> [a; b]) with [" " +:+ a; " " +:+ b].
    rewrite <-concat_split_last.
    change ((λ c, " " +:+ c) <$> [a +:+ ", " +:+ b]) with [" " +:+ a +:+ ", " +:+ b].
    by rewrite !append_assoc.
Qed.

Lemma concat_snoc sep (l : list string) x :
  l ≠ [] → String.concat sep (l ++ [x]) = String.concat sep l +:+ sep +:+ x.
Proof.
  induction l as [|u l IH]; [done|]. intros _. destruct l as [|v l]; [done|].
  change (String.concat sep ((u :: v :: l) ++ [x]))
    with (u +:+ sep +:+ String.concat sep ((v :: l) ++ [x])).
  rewrite IH by done.
  change (String.concat sep (u :: v :: l))
    with (u +:+ sep +:+ String.concat sep (v :: l)).
  by rewrite !append_assoc.
Qed.

(** X3: one more filter extends the query without a limit at its end:
    the first filter opens the WHERE clause, every later one is joined
    by AND, and the filters already there keep their place. *)
Theorem get_jdbc_sql_add_filter table columns filters (f : string) :
  get_jdbc_sql table columns (filters ++ [f]) (-1)
  = get_jdbc_sql table columns filters (-1)
      +:+ (if decide (filters = []) then " WHERE " else " AND") +:+ "(" +:+ f +:+ ")".
Proof.
  rewrite !get_jdbc_sql_render. unfold query_clauses, render_query.
  destruct filters as [|g filters].
  - cbn [app foldr render_clause where_clauses limit_clauses fmap list_fmap String.concat].
    rewrite decide_True by done. unfold parenthesized.
    by rewrite !append_nil_r, !append_assoc.
  - rewrite decide_False by done.
    change (where_clauses ((g :: filters) ++ [f]))
      with [WhereClause ((g :: filters) ++ [f])].
    cbn [app foldr render_clause where_clauses limit_clauses].
    change (limit_clauses (-1)) with (@nil Clause). cbn [foldr].
    change (g :: filters ++ [f]) with ((g :: filters) ++ [f]).
    rewrite fmap_app.
    change (parenthesized <$> [f]) with [parenthesized f].
    rewrite concat_snoc by done. unfold parenthesized.
    by rewrite !append_nil_r, !append_assoc.
Qed.

(** * Further properties of the scan *)

Section scan_extras.
Context {Row Scanner : Type} {ops : JDBCScannerOps Row Scanner}.
Context (driver_manager : JDBCDriverManager).
Implicit Types (ds : JDBCDataSource Scanner) (sc : Scanner) (chunk : Chunk Row).
Implicit Types (state : RuntimeState) (st : Status) (fuel : nat).

(** X4: once the driver is resolved, [open] builds the scanner from a
    context that carries the resolved location, the driver class, the
    URL, user and password of the table, and the query generated from
    the table name, the columns and filters of the plan node and the
    read limit; the scanner is installed whether its [open] succeeds or
    not, the status is OK or the status of the scanner's [open], and
    the counter is not touched. *)
Theorem open_builds_scan_context state ds td status location :
  get_tuple_descriptor state (tuple_id (_jdbc_scan_node (_provider ds))) = Some td →
  driver_manager (jdbc_driver_name (table_desc td)) (jdbc_driver_url (table_desc td))
    (jdbc_driver_checksum (table_desc td)) = (status, location) →
  Status_ok status = true →
  ∃ ctx st sc ds',
    scanner_open (scanner_new ctx td) state = (st, sc)
    ∧ open driver_manager state ds = Done (if Status_ok st then Status_OK else st, ds')
    ∧ _scanner ds' = Some sc
    ∧ sql ctx = get_jdbc_sql (jdbc_table (table_desc td))
                  (columns (_jdbc_scan_node (_provider ds)))
                  (filters (_jdbc_scan_node (_provider ds))) (_read_limit ds)
    ∧ driver_path ctx = location
    ∧ driver_class_name ctx = jdbc_driver_class (table_desc td)
    ∧ ctx_jdbc_url ctx = jdbc_url (table_desc td)
    ∧ user ctx = jdbc_user (table_desc td)
    ∧ passwd ctx = jdbc_passwd (table_desc td)
    ∧ raw_rows_read ds' = raw_rows_read ds
    ∧ _tuple_desc ds' = Some td
    ∧ _runtime_state ds' = Some state.
Proof.
  intros Htd Hm Hok.
  set (ctx := {| driver_path := location;
                 driver_class_name := jdbc_driver_class (table_desc td);
                 ctx_jdbc_url := jdbc_url (table_desc td);
                 user := jdbc_user (table_desc td);
                 passwd := jdbc_passwd (table_desc td);
                 sql := get_jdbc_sql (jdbc_table (table_desc td))
                          (columns (_jdbc_scan_node (_provider ds)))
                          (filters (_jdbc_scan_node (_provider ds))) (_read_limit ds) |}).
  destruct (scanner_open (scanner_new ctx td) state) as [st sc] eqn:Ho.
  exists ctx, st, sc, (set_scanner sc (set_state_and_tuple_desc state (Some td) ds)).
  split; [done|]. split; [|done].
  unfold open, _create_scanner. rewrite Htd.
  cbn [set_state_and_tuple_desc _tuple_desc _provider _read_limit].
  rewrite Hm, Hok. cbn [negb]. fold ctx. rewrite Ho.
  destruct (Status_ok st) eqn:Hst; cbn [negb]; by rewrite ?Hst.
Qed.


(** X6: [get_next] does not guard against a missing scanner the way
    [close] does: on a data source fresh from [create_data_source],
    whatever the scan range, and on one whose [open] failed on the
    driver, [get_next] dereferences the null scanner, while [close]
    leaves the data source as it is. *)
Theorem get_next_without_scanner {ScanRange : Type} (scan_range : ScanRange)
    provider state td status location fuel state' chunk0 :
  get_tuple_descriptor state (tuple_id (_jdbc_scan_node provider)) = Some td →
  driver_manager (jdbc_driver_name (table_desc td)) (jdbc_driver_url (table_desc td))
    (jdbc_driver_checksum (table_desc td)) = (status, location) →
  Status_ok status = false →
  get_next fuel state' chunk0 (create_data_source provider scan_range) = NullDereference
  ∧ close state' (create_data_source provider scan_range)
    = create_data_source provider scan_range
  ∧ ∃ ds',
      open driver_manager state (create_data_source provider scan_range)
      = Done (status, ds')
      ∧ get_next fuel state' chunk0 ds' = NullDereference
      ∧ close state' ds' = ds'
      ∧ calls driver_manager fuel [CallOpen state; CallGetNext state']
          (create_data_source provider scan_range) = NullDereference.
Proof.
  intros Htd Hm Hok. split; [done|]. split; [done|].
  pose proof (open_driver_failure driver_manager state
    (create_data_source provider scan_range) td status location Htd Hm Hok) as Ho.
  eexists. split; [exact Ho|]. split; [done|]. split; [done|].
  cbn [calls call]. by rewrite Ho.
Qed.

(** X7: errors of the scanner end [get_next] at once.  A failing reset
    is returned before any fetch, with the caller's chunk as it was,
    whatever the fuel; a failing fetch is returned with the chunk and
    the scanner as that fetch left them, even if it raised the end flag
    or brought rows, and the counter stays as it was. *)
Theorem get_next_error_propagation fuel state chunk0 ds sc st_r sc_r :
  _scanner ds = Some sc →
  scanner_reset_jni_env sc = (st_r, sc_r) →
  (Status_ok st_r = false →
   get_next fuel state chunk0 ds = Done (st_r, chunk0, set_scanner sc_r ds))
  ∧ (Status_ok st_r = true →
     ∀ k sc0 st chunk eos sc1,
       skips state k sc_r sc0 →
       scanner_get_next sc0 state = (st, chunk, eos, sc1) →
       Status_ok st = false →
       (k < fuel)%nat →
       get_next fuel state chunk0 ds = Done (st, chunk, set_scanner sc1 ds)
       ∧ raw_rows_read (set_scanner sc1 ds) = raw_rows_read ds).
Proof.
  intros Hsc Hr. split.
  - intros Hok. unfold get_next. by rewrite Hsc, Hr, Hok.
  - intros Hok k sc0 st chunk eos sc1 Hk Hf Hst Hlt. split; [|done].
    rewrite (get_next_settled _ _ _ _ _ _ _ _ _ _ _ _ _ Hsc Hr Hok Hk Hf) by
      (done || by left).
    unfold get_next_result. by rewrite Hst.
Qed.

(** X8: whatever [get_next] returns, it has changed nothing of the data
    source but the scanner and the counter; and when the status is not
    OK the counter is unchanged as well, and the status is either the
    end of file of [get_next] itself or a status that the scanner gave
    to a reset or a fetch. *)
Theorem get_next_frame fuel state chunk0 ds st chunk ds' :
  get_next fuel state chunk0 ds = Done (st, chunk, ds') →
  _provider ds' = _provider ds
  ∧ _runtime_state ds' = _runtime_state ds
  ∧ _tuple_desc ds' = _tuple_desc ds
  ∧ _read_limit ds' = _read_limit ds
  ∧ is_Some (_scanner ds')
  ∧ (Status_ok st = false →
     raw_rows_read ds' = raw_rows_read ds
     ∧ (st = Status_EndOfFile ""
        ∨ (∃ sc sc', scanner_reset_jni_env sc = (st, sc'))
        ∨ (∃ sc c eos sc', scanner_get_next sc state = (st, c, eos, sc')))).
Proof.
  intros Hg.
  apply get_next_inv in Hg as (sc & st_r & sc_r & Hsc & Hr & [[Hok [= -> -> ->]]|[Hok Hg]]).
  { do 4 (split; [done|]). split; [by eexists|].
    intros _. split; [done|]. right; left. by exists sc, sc_r. }
  destruct Hg as (k & sc0 & st0 & c & eos & sc1 & _ & _ & Hf & _ & Hg).
  unfold get_next_result in Hg.
  destruct (Status_ok st0) eqn:Hok0; cbn [negb] in Hg.
  - destruct eos; injection Hg as -> -> ->.
    + do 4 (split; [done|]). split; [by eexists|].
      intros _. split; [done|]. by left.
    + do 4 (split; [done|]). split; [by eexists|]. done.
  - injection Hg as -> -> ->. do 4 (split; [done|]). split; [by eexists|].
    intros _. split; [done|]. right; right. by exists sc0, c, eos, sc1.
Qed.

Lemma fetch_loop_always_skipping state (P : Scanner → Prop) fuel sc :
  always_skipping state P → P sc → fetch_loop fuel state sc = OutOfFuel.
Proof.
  intros HP. revert sc. induction fuel as [|fuel IH]; intros sc Hsc; [done|].
  destruct (HP sc Hsc) as (st & chunk & sc' & Hf & Hok & Hn & Hsc').
  rewrite (fetch_loop_skip _ _ _ _ _ _ Hf Hok Hn). by apply IH.
Qed.

(** X9: the loop has no bound of its own.  Against a scanner that, once
    reset, answers every fetch with a chunk without rows and without
    the end flag, [get_next] is still fetching whatever the fuel: it
    never returns. *)
Theorem get_next_keeps_fetching state (P : Scanner → Prop) chunk0 ds sc st_r sc_r :
  always_skipping state P →
  _scanner ds = Some sc →
  scanner_reset_jni_env sc = (st_r, sc_r) → Status_ok st_r = true →
  P sc_r →
  ∀ fuel, get_next fuel state chunk0 ds = OutOfFuel.
Proof.
  intros HP Hsc Hr Hok Hsc_r fuel. unfold get_next.
  rewrite Hsc, Hr, Hok. cbn [negb].
  by rewrite (fetch_loop_always_skipping state P fuel sc_r).
Qed.

End scan_extras.

(** ** Scans of whole scripts *)








(** ** The further properties on sample scans *)

Lemma open_builds_scan_context_witness :
  ∃ ctx (ds' : JDBCDataSource (ScriptedScanner nat)),
    sql ctx = get_jdbc_sql "t" ["a"; "b"] [] (-1)
    ∧ driver_path ctx = "/drivers/mysql"
    ∧ is_Some (_scanner ds')
    ∧ raw_rows_read ds' = 0.
Proof.
  destruct (open_builds_scan_context (ops := no_data) resolving_manager sample_state
    (new_JDBCDataSource sample_provider) {| table_desc := sample_table |}
    Status_OK "/drivers/mysql")
    as (ctx & st & sc & ds' & _ & _ & Hsc & Hsql & Hpath & _ & _ & _ & _ & Hrows & _);
    [reflexivity..|].
  exists ctx, ds'. split; [exact Hsql|]. split; [exact Hpath|].
  split; [by rewrite Hsc|exact Hrows].
Defined.


Lemma get_next_without_scanner_witness :
  get_next (ops := no_data) 5 sample_state []
    (create_data_source sample_provider 0%nat) = NullDereference
  ∧ calls (ops := no_data) failing_manager 5
      [CallOpen sample_state; CallGetNext sample_state]
      (create_data_source sample_provider 0%nat) = NullDereference.
Proof.
  destruct (get_next_without_scanner (ops := no_data) failing_manager 0%nat
    sample_provider sample_state {| table_desc := sample_table |}
    (Status_NotFound "mysql") "" 5 sample_state [])
    as (H1 & _ & ds' & _ & _ & _ & H2); [reflexivity..|].
  by split.
Defined.

Lemma get_next_error_propagation_witness :
  get_next (ops := failing_reset) 0 sample_state [9]%nat (scanning [] end_of_data)
  = Done (Status_NotFound "jni", [9]%nat,
          set_scanner (mkScripted sample_ctx [] end_of_data 1 0)
            (scanning [] end_of_data))
  ∧ get_next (ops := no_data) 2 sample_state []
      (scanning [batch []; mkReply (Status_NotFound "row") [1; 2]%nat true] end_of_data)
    = Done (Status_NotFound "row", [1; 2]%nat,
            set_scanner (mkScripted sample_ctx [] end_of_data 1 0)
              (scanning [batch []; mkReply (Status_NotFound "row") [1; 2]%nat true]
                 end_of_data)).
Proof.
  split.
  - apply (proj1 (get_next_error_propagation (ops := failing_reset) 0 sample_state
      [9]%nat (scanning [] end_of_data) (mkScripted sample_ctx [] end_of_data 1 0)
      (Status_NotFound "jni") (mkScripted sample_ctx [] end_of_data 1 0)
      eq_refl eq_refl)).
    reflexivity.
  - apply (proj2 (get_next_error_propagation (ops := no_data) 2 sample_state []
      (scanning [batch []; mkReply (Status_NotFound "row") [1; 2]%nat true] end_of_data)
      (mkScripted sample_ctx
         [batch []; mkReply (Status_NotFound "row") [1; 2]%nat true] end_of_data 1 0)
      Status_OK
      (mkScripted sample_ctx
         [batch []; mkReply (Status_NotFound "row") [1; 2]%nat true] end_of_data 1 0)
      eq_refl eq_refl) eq_refl 1%nat
      (mkScripted sample_ctx [mkReply (Status_NotFound "row") [1; 2]%nat true]
         end_of_data 1 0)
      (Status_NotFound "row") [1; 2]%nat true
      (mkScripted sample_ctx [] end_of_data 1 0)).
    + eapply skips_S; [reflexivity|reflexivity|reflexivity|constructor].
    + reflexivity.
    + reflexivity.
    + lia.
Defined.

Lemma get_next_frame_witness :
  _read_limit (set_rows_read 2 (set_scanner (mkScripted sample_ctx [] end_of_data 1 0)
                 (scanning [batch [1; 2]%nat] end_of_data)))
  = _read_limit (scanning [batch [1; 2]%nat] end_of_data).
Proof.
  apply (get_next_frame (ops := no_data) 1 sample_state []
    (scanning [batch [1; 2]%nat] end_of_data) Status_OK [1; 2]%nat).
  reflexivity.
Defined.

Lemma get_next_keeps_fetching_witness :
  get_next (ops := never_ending) 1000 sample_state [] (scanning [] (batch []))
  = OutOfFuel.
Proof.
  refine (get_next_keeps_fetching (ops := never_ending) sample_state
    (λ sc, script sc = [] ∧ after_script sc = batch []) []
    (scanning [] (batch [])) (mkScripted sample_ctx [] (batch []) 1 0) Status_OK
    (mkScripted sample_ctx [] (batch []) 1 0) _ _ _ _ _ 1000%nat).
  - intros sc [Hs Ha]. exists Status_OK, [], sc.
    cbn [scanner_get_next never_ending scripted_ops]. unfold scripted_get_next.
    rewrite Hs, Ha. done.
  - reflexivity.
  - reflexivity.
  - reflexivity.
  - split; reflexivity.
Defined.


(** ** The counter at the end of its range *)

(** The claim C8 as it stands fails at the end of the 64-bit range: on
    a data source whose counter reads 2^63 - 1, a [get_next] that hands
    over a chunk of one row with an OK status leaves the counter at
    -2^63, below where it was. *)
Lemma rows_read_wraps_at_int64_max :
  ∃ ds',
    call (ops := no_data) resolving_manager 1 (CallGetNext sample_state)
      (set_rows_read int64_max (scanning [batch [1]%nat] end_of_data))
    = Done (SeenChunk [1]%nat, ds')
    ∧ raw_rows_read (set_rows_read int64_max (scanning [batch [1]%nat] end_of_data))
      = 2 ^ 63 - 1
    ∧ raw_rows_read ds' = - 2 ^ 63
    ∧ raw_rows_read ds'
      < raw_rows_read (set_rows_read int64_max (scanning [batch [1]%nat] end_of_data))
    ∧ raw_rows_read ds'
      ≠ raw_rows_read (set_rows_read int64_max (scanning [batch [1]%nat] end_of_data))
        + num_rows [1]%nat.
Proof.
  generalize sample_state; intros state.
  eexists. split; [lazy; reflexivity|].
  split; [reflexivity|]. split; [reflexivity|]. split; [reflexivity|].
  vm_compute; discriminate.
Qed.
